(** * Build views of the publisher dashboard (webapp/publisher/snaps/build_views.py)

    A shallow embedding of the view functions that list, trigger and
    connect remote builds, and of the GitHub push webhook.  The remote
    services (dashboard API, Launchpad, GitHub) are not part of the module:
    their answers are the fields of a [World], and every call the module
    makes to them is recorded in a trace, so that "no build is triggered"
    is a statement about that trace. *)

From Stdlib Require Import ZArith Lia Ascii String.
From stdpp Require Import base option list strings gmap.

Set Warnings "-register-all".
Local Open Scope Z_scope.

(** ** Python values used by the module *)

(** [s.split(sep)] for a one-character separator: never empty, one more
    piece than there are separators. *)
Fixpoint split (sep : ascii) (s : string) : list string :=
  match s with
  | EmptyString => [EmptyString]
  | String c s' =>
      if Ascii.eqb c sep then EmptyString :: split sep s'
      else match split sep s' with
           | [] => [String c EmptyString]
           | piece :: pieces => String c piece :: pieces
           end
  end.

(** [l[-1]]: the last element; IndexError on an empty list is modelled by
    [None]. *)
Definition item_last {A} (l : list A) : option A := last l.

(** A Python [str] is held as its UTF-8 encoding, one [ascii] per byte.
    Equality, truthiness and splitting at ["/"] are the same on the
    encoding as on the characters; slicing counts code points, so it has
    to step over whole encoded characters. *)

(** The number of bytes of the encoded character that starts with [c]
    (a stray continuation byte counts as one). *)
Definition code_point_width (c : ascii) : nat :=
  let n := N_of_ascii c in
  if (n <? 192)%N then 1%nat
  else if (n <? 224)%N then 2%nat
  else if (n <? 240)%N then 3%nat
  else 4%nat.

Fixpoint drop_bytes (n : nat) (s : string) : string :=
  match n, s with
  | O, _ => s
  | S n', String _ s' => drop_bytes n' s'
  | S _, EmptyString => EmptyString
  end.

(** [s[n:]] on strings: the text after the first [n] code points. *)
Fixpoint str_from (n : nat) (s : string) : string :=
  match n with
  | O => s
  | S n' =>
      match s with
      | EmptyString => EmptyString
      | String c s' =>
          str_from n' (drop_bytes (code_point_width c - 1)%nat s')
      end
  end.

(** Index adjustment of [slice.indices] for a positive step: a negative
    index counts from the end, and the result is clamped to [0, len]. *)
Definition adjust_index (len i : Z) : Z :=
  if i <? 0 then Z.max 0 (i + len) else Z.min i len.

(** [slice(start, stop)] with integer bounds, as the module builds it. *)
Record slice := Slice { slice_start : Z; slice_stop : Z }.

(** [l[selection]] *)
Definition getslice {A} (l : list A) (selection : slice) : list A :=
  let len := Z.of_nat (length l) in
  let lo := adjust_index len (slice_start selection) in
  let hi := adjust_index len (slice_stop selection) in
  take (Z.to_nat (hi - lo)) (drop (Z.to_nat lo) l).

(** Truthiness of a value that is a string or [None]. *)
Definition truthy (o : option string) : bool :=
  match o with
  | Some (String _ _) => true
  | _ => false
  end.

(** [str(x)] inside an f-string, for a value that is a string or [None]. *)
Definition fmt (o : option string) : string :=
  match o with
  | Some s => s
  | None => "None"
  end.

(** The small dicts the module builds by hand and hands to [jsonify]. *)
Inductive value :=
| VNone
| VBool (b : bool)
| VInt (z : Z)
| VStr (s : string)
| VDict (d : list (string * value)).

Definition pydict := list (string * value).

(** [d.get(k)] / key lookup *)
Fixpoint dict_get (k : string) (d : pydict) : option value :=
  match d with
  | [] => None
  | (k', v) :: d' => if String.eqb k k' then Some v else dict_get k d'
  end.

(** [d[k] = v]: overwrite in place, or append a new key. *)
Fixpoint dict_set (k : string) (v : value) (d : pydict) : pydict :=
  match d with
  | [] => [(k, v)]
  | (k', v') :: d' =>
      if String.eqb k k' then (k, v) :: d' else (k', v') :: dict_set k v d'
  end.

Definition dict_has (k : string) (d : pydict) : bool :=
  match dict_get k d with Some _ => true | None => false end.

(** Truthiness of a [value]. *)
Definition value_truthy (v : value) : bool :=
  match v with
  | VNone => false
  | VBool b => b
  | VInt z => negb (z =? 0)
  | VStr s => truthy (Some s)
  | VDict d => match d with [] => false | _ => true end
  end.

(** ** Exceptions, calls and the handler monad *)

Inductive exn :=
| HTTPError (status_code : Z)
| ApiResponseErrorList (status_code : Z) (errors : list string)
| ApiError (message : string)
| InvalidYAML
| Unauthorized
| KeyError (key : string)
| TypeError (message : string)
| ValueError (message : string)
| AttributeError (message : string)
| NotFound (description : string)
| OtherException (name : string).

Inductive result (A : Type) :=
| Ok (a : A)
| Raise (e : exn).
Arguments Ok {A} a.
Arguments Raise {A} e.

(** What the module does to the outside world, in order. *)
Inductive event :=
| ApiGetSnapInfo (snap_name : string)
| ApiGetAccountSnaps
| ApiGetPackageUploadMacaroon (snap_name : string)
| LpGetSnapBuilds (store_name : option string)
| LpGetBuildersStatus
| LpGetSnapByStoreName (store_name : string)
| LpGetSnap (name : string)
| LpGetSnapBuild (store_name build_id : string)
| LpGetSnapBuildLog (store_name build_id : string)
| LpIsSnapBuilding (store_name : option string)
| LpCancelSnapBuilds (store_name : option string)
| LpBuildSnap (store_name : option string)
| LpCreateSnap (snap_name git_url macaroon : string)
| LpRequestDelete (path : string)
| GhGetSnapcraftYamlLocation (owner repo : string)
| GhGetSnapcraftYamlName (owner repo : string)
| GhCheckPermissionsOverRepo (owner repo : string)
| GhValidateWebhookSignature (data : string) (signature : option string)
| GhGetHookByUrl (owner repo url : string)
| GhCreateHook (owner repo url : string)
| Flash (message category : string).

(** A handler computes a result or raises, and leaves a trace of calls. *)
Definition M (A : Type) : Type := result A * list event.

#[global] Instance M_ret : MRet M := fun A a => (Ok a, []).

#[global] Instance M_bind : MBind M := fun A B f m =>
  match m with
  | (Ok a, t) => let '(r, t') := f a in (r, t ++ t')
  | (Raise e, t) => (Raise e, t)
  end.

Definition raise {A} (e : exn) : M A := (Raise e, []).

(** One call to a remote service: the call is recorded whether it returns
    or raises. *)
Definition call {A} (ev : event) (answer : result A) : M A := (answer, [ev]).

(** A local computation that may raise. *)
Definition lift {A} (r : result A) : M A := (r, []).

(** [try: body except <exceptions handled by h>: ...]; [h e = None] lets
    [e] propagate. *)
Definition try_except {A} (body : M A) (h : exn -> option (M A)) : M A :=
  match body with
  | (Ok a, t) => (Ok a, t)
  | (Raise e, t) =>
      match h e with
      | Some k => let '(r, t') := k in (r, t ++ t')
      | None => (Raise e, t)
      end
  end.

Definition outcome {A} (m : M A) : result A := fst m.
Definition trace {A} (m : M A) : list event := snd m.

(** ** Data of the remote services *)

(** A build entry of Launchpad, with the keys the module reads.  Fields
    that are only passed through to the page are kept as [value]s. *)
Record LpBuild := {
  self_link : string;
  arch_tag : string;
  datebuilt : value;
  duration : value;
  build_log_url : value;
  revision_id : value;
  buildstate : string;
  store_upload_status : option string;
  title : value;
}.

(** A snap entry of Launchpad. *)
Record LpSnap := {
  store_name : option string;
  git_repository_url : string;
  snap_self_link : string;
}.

(** One entry of [launchpad.get_builders_status()], keyed by architecture. *)
Record BuilderStatus := {
  estimated_duration : value;
}.

(** [api.get_snap_info] *)
Record SnapDetails := {
  snap_id : string;
  details_snap_name : string;
  details_title : string;
}.

Record Hook := { hook_id : Z }.

(** The dict built by [get_builds] for each build. *)
Record SnapBuildRow := {
  row_id : string;
  row_arch_tag : string;
  row_datebuilt : value;
  row_duration : value;
  row_logs : value;
  row_revision_id : value;
  row_status : string;
  row_title : value;
  queue_time : value;
}.

(** [snap_build["queue_time"] = v] *)
Definition set_queue_time (v : value) (r : SnapBuildRow) : SnapBuildRow :=
  {| row_id := row_id r;
     row_arch_tag := row_arch_tag r;
     row_datebuilt := row_datebuilt r;
     row_duration := row_duration r;
     row_logs := row_logs r;
     row_revision_id := row_revision_id r;
     row_status := row_status r;
     row_title := row_title r;
     queue_time := v |}.

(** The dict built by [get_snap_build]: the same keys without
    ["queue_time"]. *)
Record SnapBuild := {
  id : string;
  sb_arch_tag : string;
  sb_datebuilt : value;
  sb_duration : value;
  logs : value;
  sb_revision_id : value;
  status : string;
  sb_title : value;
}.

(** The dict returned by [get_builds]. *)
Record Builds := {
  total_builds : nat;
  snap_builds : list SnapBuildRow;
}.

(** Template context of [get_snap_build]; [None] is the empty dict, resp.
    the absent ["raw_logs"] key. *)
Record BuildContext := {
  ctx_snap_id : string;
  ctx_snap_name : string;
  ctx_snap_title : string;
  ctx_snap_build : option SnapBuild;
  ctx_raw_logs : option string;
}.

Inductive response :=
| Body (body : string) (status_code : Z)
| Jsonify (body : pydict)
| JsonifyBuilds (total : option nat) (rows : list SnapBuildRow)
| Redirect (url : string)
| RenderBuild (context : BuildContext)
| ErrorPage (description : string).

(** The answers of everything outside the module.  A call either returns
    or raises; [md5_hexdigest], [url_for_get_snap_builds] and the module
    constant [GITHUB_SNAPCRAFT_USER_TOKEN] are plain values.
    [map_build_and_upload_states], [handle_error] and [handle_error_list]
    live in sibling modules of the web application; the error helpers
    answer with an error page of their own, or raise. *)
Record World := {
  GITHUB_SNAPCRAFT_USER_TOKEN : option string;
  md5_hexdigest : string -> string;
  url_for_get_snap_builds : string -> string;
  map_build_and_upload_states : string -> option string -> result string;
  handle_error : exn -> result string;
  handle_error_list : list string -> result string;
  api_get_snap_info : string -> result SnapDetails;
  api_get_account_snaps : result (list string);
  api_get_package_upload_macaroon : string -> result string;
  lp_get_snap_builds : option string -> result (list LpBuild);
  lp_get_builders_status : result (gmap string BuilderStatus);
  lp_get_snap_by_store_name : string -> result (option LpSnap);
  lp_get_snap : string -> result (option LpSnap);
  lp_get_snap_build : string -> string -> result (option LpBuild);
  lp_get_snap_build_log : string -> string -> result string;
  lp_is_snap_building : option string -> result bool;
  lp_cancel_snap_builds : option string -> result unit;
  lp_build_snap : option string -> result unit;
  lp_create_snap : string -> string -> string -> result unit;
  lp_request_delete : string -> result unit;
  gh_get_snapcraft_yaml_location :
    option string -> string -> string -> result (option string);
  gh_get_snapcraft_yaml_name :
    option string -> string -> string -> result (option string);
  gh_check_permissions_over_repo :
    option string -> string -> string -> result bool;
  gh_validate_webhook_signature : string -> option string -> result bool;
  gh_get_hook_by_url :
    option string -> string -> string -> string -> result (option Hook);
  gh_create_hook : option string -> string -> string -> string -> result unit;
}.

(** The parts of [flask.session] and [flask.request] the handlers read.
    [flask.request.json] is a GitHub push event: the five keys the webhook
    reads are there.  [arg_start] and [arg_size] are the query parameters
    after [type=int]: [None] when absent or not an integer, which is when
    [args.get] falls back to its default. *)
Record PushEvent := {
  repository_html_url : string;
  repository_owner_login : string;
  repository_name : string;
  repository_default_branch : string;
  ref : string;
}.

Record Request := {
  github_auth_secret : option string;
  arg_start : option Z;
  arg_size : option Z;
  form_github_repository : option string;
  json : PushEvent;
  data : string;
  x_hub_signature : option string;
}.

Definition BUILDS_PER_PAGE : Z := 15.

(** ** get_builds *)

(** [build["self_link"].split("/")[-1]] *)
Definition build_id_of (link : string) : result string :=
  match item_last (split "/" link) with
  | Some piece => Ok piece
  | None => Raise (OtherException "IndexError")
  end.

(** Truthiness of the loop variable [builders_status]: [None] at first,
    then the dict that was fetched (an empty dict is falsy as well). *)
Definition builders_truthy (b : option (gmap string BuilderStatus)) : bool :=
  match b with
  | Some m => negb (bool_decide (m = ∅))
  | None => false
  end.

(** The body of [for build in builds], threading [builders_status]. *)
Fixpoint get_builds_loop (w : World) (builds : list LpBuild)
    (builders_status : option (gmap string BuilderStatus))
    : M (list SnapBuildRow) :=
  match builds with
  | [] => mret []
  | build :: rest =>
      status ← lift (map_build_and_upload_states w (buildstate build)
                       (store_upload_status build));
      ident ← lift (build_id_of (self_link build));
      let snap_build := {|
        row_id := ident;
        row_arch_tag := arch_tag build;
        row_datebuilt := datebuilt build;
        row_duration := duration build;
        row_logs := build_log_url build;
        row_revision_id := revision_id build;
        row_status := status;
        row_title := title build;
        queue_time := VNone |} in
      '(snap_build, builders_status) ←
        (if String.eqb (buildstate build) "Needs building" then
           status_map ←
             (if builders_truthy builders_status
              then mret (default ∅ builders_status)
              else call LpGetBuildersStatus (lp_get_builders_status w));
           match status_map !! arch_tag build with
           | Some info =>
               mret (set_queue_time (estimated_duration info) snap_build,
                     Some status_map)
           | None => raise (KeyError (arch_tag build))
           end
         else mret (snap_build, builders_status));
      rows ← get_builds_loop w rest builders_status;
      mret (snap_build :: rows)
  end.

Definition get_builds (w : World) (lp_snap : LpSnap) (selection : slice)
    : M Builds :=
  builds ← call (LpGetSnapBuilds (store_name lp_snap))
                (lp_get_snap_builds w (store_name lp_snap));
  let total := length builds in
  let builds := getslice builds selection in
  rows ← get_builds_loop w builds None;
  mret {| total_builds := total; snap_builds := rows |}.

(** ** Shared pieces of the view functions

    The views are embedded as their bodies, without the decorators
    ([login_required], [csrf.exempt]) that wrap them. *)

(** [value[k]] on a dict value. *)
Definition getitem (k : string) (v : value) : result value :=
  match v with
  | VDict d =>
      match dict_get k d with
      | Some x => Ok x
      | None => Raise (KeyError k)
      end
  | _ => Raise (TypeError "object is not subscriptable")
  end.

(** [str(v)] for a value shown to the user. *)
Definition value_str (v : value) : string :=
  match v with
  | VNone => "None"
  | VBool true => "True"
  | VBool false => "False"
  | VInt _ => "<int>"
  | VStr s => s
  | VDict _ => "<dict>"
  end.

Definition value_of_opt (o : option string) : value :=
  match o with
  | Some s => VStr s
  | None => VNone
  end.

(** [lp_snap[...]] on what may be [None]. *)
Definition subscript_snap (o : option LpSnap) : result LpSnap :=
  match o with
  | Some s => Ok s
  | None => Raise (TypeError "'NoneType' object is not subscriptable")
  end.

(** [owner, repo = text.split("/")] where [text] comes from [dict.get]. *)
Definition unpack_repository (text : option string) : result (string * string) :=
  match text with
  | None => Raise (AttributeError "'NoneType' object has no attribute 'split'")
  | Some s =>
      match split "/" s with
      | [owner; repo] => Ok (owner, repo)
      | _ => Raise (ValueError "wrong number of values to unpack")
      end
  end.

Definition flash (message category : string) : M unit :=
  (Ok tt, [Flash message category]).

(** The [try: details = api.get_snap_info(...) except ...] prologue that
    opens most views: the details, or the response the view returns at
    once.  [flask.abort] raises. *)
Definition get_details_or_respond (w : World) (snap_name : string)
    : M (response + SnapDetails) :=
  try_except
    (details ← call (ApiGetSnapInfo snap_name) (api_get_snap_info w snap_name);
     mret (inr details))
    (fun e =>
       match e with
       | ApiResponseErrorList code errors =>
           Some (if code =? 404
                 then raise (NotFound ("No snap named " +:+ snap_name))
                 else page ← lift (handle_error_list w errors);
                      mret (inl (ErrorPage page)))
       | ApiError _ =>
           Some (page ← lift (handle_error w e); mret (inl (ErrorPage page)))
       | _ => None
       end).

(** ** get_snap_build *)

Definition get_snap_build (w : World) (snap_name build_id : string)
    : M response :=
  d ← get_details_or_respond w snap_name;
  match d with
  | inl early => mret early
  | inr details =>
      lp_build ← call (LpGetSnapBuild (details_snap_name details) build_id)
                      (lp_get_snap_build w (details_snap_name details) build_id);
      '(snap_build, raw_logs) ←
        match lp_build with
        | Some lp_build =>
            status ← lift (map_build_and_upload_states w (buildstate lp_build)
                             (store_upload_status lp_build));
            ident ← lift (build_id_of (self_link lp_build));
            let snap_build := {|
              id := ident;
              sb_arch_tag := arch_tag lp_build;
              sb_datebuilt := datebuilt lp_build;
              sb_duration := duration lp_build;
              logs := build_log_url lp_build;
              sb_revision_id := revision_id lp_build;
              status := status;
              sb_title := title lp_build |} in
            if value_truthy (logs snap_build) then
              raw ← call (LpGetSnapBuildLog (details_snap_name details) build_id)
                         (lp_get_snap_build_log w (details_snap_name details)
                                                build_id);
              mret (Some snap_build, Some raw)
            else mret (Some snap_build, None)
        | None => mret (None, None)
        end;
      mret (RenderBuild {|
        ctx_snap_id := snap_id details;
        ctx_snap_name := details_snap_name details;
        ctx_snap_title := details_title details;
        ctx_snap_build := snap_build;
        ctx_raw_logs := raw_logs |})
  end.

(** ** validate_repo *)

Definition MISSING_YAML_MESSAGE : string :=
  "Missing snapcraft.yaml: this repo needs a snapcraft.yaml " +:+
  "file, so that Snapcraft can make it buildable, installable " +:+
  "and runnable.".

(** The double quote character of the f-string. *)
Definition dquote : string := String (ascii_of_nat 34) EmptyString.

Definition name_mismatch_message (gh_snap_name snap_name : option string)
    : string :=
  "Name mismatch: the snapcraft.yaml uses the snap " +:+
  "name " +:+ dquote +:+ fmt gh_snap_name +:+ dquote +:+
  ", but you've registered" +:+
  " the name " +:+ dquote +:+ fmt snap_name +:+ dquote +:+
  ". Update your " +:+
  "snapcraft.yaml to continue.".

Definition invalid_yaml_message (snap_name : option string) : string :=
  "Invalid snapcraft.yaml: there was an issue parsing the " +:+
  "snapcraft.yaml for " +:+ fmt snap_name +:+ ".".

(** [result["success"] = False; result["error"] = error] *)
Definition fail_with (error : pydict) (result : pydict) : pydict :=
  dict_set "error" (VDict error) (dict_set "success" (VBool false) result).

Definition validate_repo (w : World) (github_token snap_name : option string)
    (gh_owner gh_repo : string) : M pydict :=
  let result := [("success", VBool true)] in
  yaml_location ← call (GhGetSnapcraftYamlLocation gh_owner gh_repo)
    (gh_get_snapcraft_yaml_location w github_token gh_owner gh_repo);
  if negb (truthy yaml_location) then
    mret (fail_with [("type", VStr "MISSING_YAML_FILE");
                     ("message", VStr MISSING_YAML_MESSAGE)] result)
  else
    try_except
      (gh_snap_name ← call (GhGetSnapcraftYamlName gh_owner gh_repo)
         (gh_get_snapcraft_yaml_name w github_token gh_owner gh_repo);
       if negb (bool_decide (gh_snap_name = snap_name)) then
         mret (fail_with
                 [("type", VStr "SNAP_NAME_DOES_NOT_MATCH");
                  ("message",
                   VStr (name_mismatch_message gh_snap_name snap_name));
                  ("yaml_location", value_of_opt yaml_location);
                  ("gh_snap_name", value_of_opt gh_snap_name)] result)
       else mret result)
      (fun e =>
         match e with
         | InvalidYAML =>
             Some (mret (fail_with
                           [("type", VStr "INVALID_YAML_FILE");
                            ("message",
                             VStr (invalid_yaml_message snap_name))] result))
         | _ => None
         end).

(** ** get_snap_builds_json *)

Definition get_snap_builds_json (w : World) (req : Request)
    (snap_name : string) : M response :=
  d ← get_details_or_respond w snap_name;
  match d with
  | inl early => mret early
  | inr details =>
      let start := default 0 (arg_start req) in
      let size := default 15 (arg_size req) in
      let build_slice := Slice start size in
      lp_snap ← call (LpGetSnapByStoreName (details_snap_name details))
                     (lp_get_snap_by_store_name w (details_snap_name details));
      match lp_snap with
      | Some lp_snap =>
          b ← get_builds w lp_snap build_slice;
          mret (JsonifyBuilds (Some (total_builds b)) (snap_builds b))
      | None => mret (JsonifyBuilds None [])
      end
  end.

(** ** post_snap_builds *)

Definition github_url (owner repo : string) : string :=
  "https://github.com/" +:+ owner +:+ "/" +:+ repo.

Definition webhook_url (snap_name : string) : string :=
  "https://snapcraft.io/" +:+ snap_name +:+ "/webhook/notify".

(** The [if not lp_snap:] branch once validation has passed: [None] means
    fall through to the final redirect. *)
Definition register_repository (w : World) (req : Request)
    (snap_name owner repo git_url redirect_url : string)
    : M (option response) :=
  let lp_snap_name := md5_hexdigest w git_url in
  repo_exist ←
    try_except
      (call (LpGetSnap lp_snap_name) (lp_get_snap w lp_snap_name))
      (fun e =>
         match e with
         | HTTPError code => if code =? 404 then Some (mret None) else None
         | _ => None
         end);
  early ←
    match repo_exist with
    | Some existing =>
        if negb (truthy (store_name existing)) then
          _ ← call (LpRequestDelete (snap_self_link existing))
                   (lp_request_delete w (snap_self_link existing));
          mret None
        else
          _ ← flash ("The specified repository is being used by another snap:"
                     +:+ " " +:+ fmt (store_name existing)) "negative";
          mret (Some (Redirect redirect_url))
    | None => mret None
    end;
  match early with
  | Some r => mret (Some r)
  | None =>
      macaroon ← call (ApiGetPackageUploadMacaroon snap_name)
                      (api_get_package_upload_macaroon w snap_name);
      _ ← call (LpCreateSnap snap_name git_url macaroon)
               (lp_create_snap w snap_name git_url macaroon);
      _ ← flash "The GitHub repository was linked correctly." "positive";
      let github_hook_url := webhook_url snap_name in
      _ ← try_except
            (hook ← call (GhGetHookByUrl owner repo github_hook_url)
                      (gh_get_hook_by_url w (github_auth_secret req)
                                          owner repo github_hook_url);
             match hook with
             | None =>
                 call (GhCreateHook owner repo github_hook_url)
                      (gh_create_hook w (github_auth_secret req)
                                      owner repo github_hook_url)
             | Some _ => mret tt
             end)
            (fun e =>
               match e with
               | HTTPError _ =>
                   Some (flash ("The GitHub Webhook could not be created. " +:+
                                "Please trigger a new build manually.")
                               "caution")
               | _ => None
               end);
      mret None
  end.

Definition post_snap_builds (w : World) (req : Request) (snap_name : string)
    : M response :=
  d ← get_details_or_respond w snap_name;
  match d with
  | inl early => mret early
  | inr details =>
      account_snaps ← call ApiGetAccountSnaps (api_get_account_snaps w);
      if negb (bool_decide (snap_name ∈ account_snaps)) then
        _ ← flash "You do not have permissions to modify this Snap" "negative";
        mret (Redirect (url_for_get_snap_builds w snap_name))
      else
        let redirect_url := url_for_get_snap_builds w snap_name in
        '(owner, repo) ← lift (unpack_repository (form_github_repository req));
        allowed ← call (GhCheckPermissionsOverRepo owner repo)
          (gh_check_permissions_over_repo w (github_auth_secret req) owner repo);
        if negb allowed then
          _ ← flash
                "Your GitHub account doesn't have permissions in the repository"
                "negative";
          mret (Redirect redirect_url)
        else
          repo_validation ← validate_repo w (github_auth_secret req)
                                          (Some snap_name) owner repo;
          success ← lift (getitem "success" (VDict repo_validation));
          if negb (value_truthy success) then
            error ← lift (getitem "error" (VDict repo_validation));
            message ← lift (getitem "message" error);
            _ ← flash (value_str message) "negative";
            mret (Redirect redirect_url)
          else
            lp_snap ← call (LpGetSnapByStoreName (details_snap_name details))
              (lp_get_snap_by_store_name w (details_snap_name details));
            let git_url := github_url owner repo in
            early ←
              match lp_snap with
              | None =>
                  register_repository w req snap_name owner repo git_url
                                      redirect_url
              | Some lp_snap =>
                  if negb (String.eqb (git_repository_url lp_snap) git_url) then
                    raise (AttributeError
                             ("Snap " +:+ snap_name +:+
                              " already has a build repository associated"))
                  else mret None
              end;
            match early with
            | Some r => mret r
            | None => mret (Redirect redirect_url)
            end
  end.

(** ** post_build *)

(** [if launchpad.is_snap_building(name): launchpad.cancel_snap_builds(name)]
    followed by [launchpad.build_snap(name)], as both [post_build] and the
    webhook do it. *)
Definition cancel_and_build (w : World) (name : option string) : M unit :=
  building ← (call (LpIsSnapBuilding name) (lp_is_snap_building w name)
              : M bool);
  _ ← (if (building : bool)
       then call (LpCancelSnapBuilds name) (lp_cancel_snap_builds w name)
       else mret tt);
  call (LpBuildSnap name) (lp_build_snap w name).

Definition post_build (w : World) (snap_name : string) : M response :=
  account_snaps ← call ApiGetAccountSnaps (api_get_account_snaps w);
  if negb (bool_decide (snap_name ∈ account_snaps)) then
    mret (Jsonify
            [("success", VBool false);
             ("error",
              VDict [("type", VStr "FORBIDDEN");
                     ("message",
                      VStr ("You are not allowed to request " +:+
                            "builds for this snap"))])])
  else
    early ←
      try_except (A := option response)
        (_ ← cancel_and_build w (Some snap_name);
         mret None)
        (fun e =>
           match e with
           | HTTPError code =>
               if bool_decide (code ∈ [408; 404])
               then Some (mret (Some (Jsonify [("success", VBool false)])))
               else None
           | _ => None
           end);
    match early with
    | Some r => mret r
    | None => mret (Jsonify [("success", VBool true)])
    end.

(** ** post_github_webhook *)

(** [if snap_name: lp_snap = launchpad.get_snap_by_store_name(snap_name)
    else: lp_snap = launchpad.get_snap(md5(repo_url).hexdigest())] *)
Definition find_webhook_snap (w : World) (snap_name : option string)
    (repo_url : string) : M (option LpSnap) :=
  if truthy snap_name
  then call (LpGetSnapByStoreName (default EmptyString snap_name))
            (lp_get_snap_by_store_name w (default EmptyString snap_name))
  else call (LpGetSnap (md5_hexdigest w repo_url))
            (lp_get_snap w (md5_hexdigest w repo_url)).

Definition post_github_webhook (w : World) (req : Request)
    (snap_name : option string) : M response :=
  let repo_url := repository_html_url (json req) in
  let gh_owner := repository_owner_login (json req) in
  let gh_repo := repository_name (json req) in
  let gh_default_branch := repository_default_branch (json req) in
  let gh_event_branch := str_from 11 (ref (json req)) in
  if negb (String.eqb gh_default_branch gh_event_branch) then
    mret (Body "The push event is not for the default branch" 200)
  else
    lp_snap ← find_webhook_snap w snap_name repo_url;
    lp_snap ← lift (subscript_snap lp_snap);
    if negb (String.eqb (git_repository_url lp_snap) repo_url) then
      mret (Body "The repository does not match the one used by this Snap" 403)
    else
      valid ← call (GhValidateWebhookSignature (data req) (x_hub_signature req))
        (gh_validate_webhook_signature w (data req) (x_hub_signature req));
      if negb valid then mret (Body "Invalid secret" 403)
      else
        validation ← validate_repo w (GITHUB_SNAPCRAFT_USER_TOKEN w)
                       (store_name lp_snap) gh_owner gh_repo;
        success ← lift (getitem "success" (VDict validation));
        if negb (value_truthy success) then
          error ← lift (getitem "error" (VDict validation));
          message ← lift (getitem "message" error);
          mret (Body (value_str message) 400)
        else
          _ ← cancel_and_build w (store_name lp_snap);
          mret (Body EmptyString 204).

(** ** The status reconciler *)

(** Modelled from the spec: [map_build_and_upload_states] lives in
    webapp/publisher/snaps/builds.py, which is not among the sources.  The
    spec describes it as a pure function [reconcile(farmState, uploadState)]
    that looks the pair up in a fixed table, where the upload state may be
    absent, and that maps every unrecognised input to a designated default,
    logging the anomaly instead of failing.  The table itself is not given,
    so it is a parameter here, and so is the default. *)
Section Reconciler.
Variable table : list ((string * option string) * string).
Variable default_status : string.

(** The vocabularies are the states the table mentions. *)
Definition known_farm_states : list string := (fun e => e.1.1) <$> table.
Definition known_upload_states : list (option string) :=
  (fun e => e.1.2) <$> table.

Fixpoint find_status (key : string * option string)
    (rows : list ((string * option string) * string)) : option string :=
  match rows with
  | [] => None
  | (k, s) :: rows' => if bool_decide (k = key) then Some s
                       else find_status key rows'
  end.

(** The combined status and the lines written to the log. *)
Definition reconcile (farm_state : string) (upload_state : option string)
    : result string * list string :=
  match find_status (farm_state, upload_state) table with
  | Some s => (Ok s, [])
  | None => (Ok default_status, ["Unrecognised build state: " +:+ farm_state])
  end.
End Reconciler.

(** ** The spec's words, for comparison with the code *)

(** "paginated via start/size": the page that begins at offset [start] and
    holds [size] builds, fewer only where the list ends. *)
Definition page_of_spec {A} (start size : Z) (l : list A) : list A :=
  take (Z.to_nat size) (drop (Z.to_nat start) l).

Fixpoint no_slash (s : string) : bool :=
  match s with
  | EmptyString => true
  | String c s' => negb (Ascii.eqb c "/") && no_slash s'
  end.

(** "a remote resource URL's trailing path segment": the text after the
    last slash, the whole text when there is none. *)
Definition trailing_segment (url segment : string) : Prop :=
  no_slash segment = true /\
  (url = segment \/ exists front, url = front +:+ "/" +:+ segment).

(** What the claim about queue times comes to, build by build. *)
Definition queue_time_of (w : World) (build : LpBuild) (row : SnapBuildRow)
    : Prop :=
  (buildstate build <> "Needs building" /\ queue_time row = VNone) \/
  (buildstate build = "Needs building" /\
   exists m info,
     lp_get_builders_status w = Ok m /\ m !! arch_tag build = Some info /\
     queue_time row = estimated_duration info).

Definition is_build_snap (e : event) : bool :=
  match e with LpBuildSnap _ => true | _ => false end.

Definition is_create (e : event) : bool :=
  match e with
  | LpCreateSnap _ _ _ | GhCreateHook _ _ _ => true
  | _ => false
  end.

(** ** Sample data *)

Definition sample_table : list ((string * option string) * string) :=
  [(("Needs building", None), "building_soon");
   (("Currently building", None), "in_progress");
   (("Failed to build", None), "failed_to_build");
   (("Successfully built", Some "Pending"), "releasing_soon");
   (("Successfully built", Some "Uploaded"), "released");
   (("Successfully built", Some "Failed to upload"), "release_failed")].

Definition sample_build (link state : string) : LpBuild := {|
  self_link := link;
  arch_tag := "amd64";
  datebuilt := VNone;
  duration := VNone;
  build_log_url := VStr "https://launchpad.net/log.txt.gz";
  revision_id := VNone;
  buildstate := state;
  store_upload_status := None;
  title := VStr "amd64 build of toto";
|}.

Definition sample_snap : LpSnap := {|
  store_name := Some "toto";
  git_repository_url := "https://github.com/canonical/toto";
  snap_self_link := "https://api.launchpad.net/devel/~bsi/+snap/0a1b";
|}.

(** A world in which everything answers, with the few answers that the
    examples vary left open. *)
Definition sample_world (signature_ok : bool)
    (yaml_name : result (option string)) (builds : list LpBuild)
    (estimate : value) (build_answer : result unit) : World := {|
  GITHUB_SNAPCRAFT_USER_TOKEN := Some "token";
  md5_hexdigest := fun _ => "0a1b";
  url_for_get_snap_builds := fun name => "/" +:+ name +:+ "/builds";
  map_build_and_upload_states := fun farm upload =>
    (reconcile sample_table "unknown" farm upload).1;
  handle_error := fun _ => Ok "error";
  handle_error_list := fun _ => Ok "errors";
  api_get_snap_info := fun name =>
    Ok {| snap_id := "id"; details_snap_name := name;
          details_title := "Toto" |};
  api_get_account_snaps := Ok ["toto"];
  api_get_package_upload_macaroon := fun _ => Ok "macaroon";
  lp_get_snap_builds := fun _ => Ok builds;
  lp_get_builders_status :=
    Ok {[ "amd64" := {| estimated_duration := estimate |} ]};
  lp_get_snap_by_store_name := fun _ => Ok (Some sample_snap);
  lp_get_snap := fun _ => Ok (Some sample_snap);
  lp_get_snap_build := fun _ _ => Ok (head builds);
  lp_get_snap_build_log := fun _ _ => Ok "log";
  lp_is_snap_building := fun _ => Ok false;
  lp_cancel_snap_builds := fun _ => Ok tt;
  lp_build_snap := fun _ => build_answer;
  lp_create_snap := fun _ _ _ => Ok tt;
  lp_request_delete := fun _ => Ok tt;
  gh_get_snapcraft_yaml_location := fun _ _ _ => Ok (Some "snapcraft.yaml");
  gh_get_snapcraft_yaml_name := fun _ _ _ => yaml_name;
  gh_check_permissions_over_repo := fun _ _ _ => Ok true;
  gh_validate_webhook_signature := fun _ _ => Ok signature_ok;
  gh_get_hook_by_url := fun _ _ _ _ => Ok None;
  gh_create_hook := fun _ _ _ _ => Ok tt;
|}.

Definition sample_push (branch : string) : PushEvent := {|
  repository_html_url := "https://github.com/canonical/toto";
  repository_owner_login := "canonical";
  repository_name := "toto";
  repository_default_branch := "master";
  ref := "refs/heads/" +:+ branch;
|}.

Definition sample_request (branch : string) (start size : option Z)
    : Request := {|
  github_auth_secret := Some "secret";
  arg_start := start;
  arg_size := size;
  form_github_repository := Some "canonical/toto";
  json := sample_push branch;
  data := "{}";
  x_hub_signature := Some "sha1=00";
|}.

Definition five_builds : list LpBuild :=
  [sample_build "https://api.launchpad.net/devel/~bsi/+snap/0a1b/+build/40"
                "Needs building";
   sample_build "https://api.launchpad.net/devel/~bsi/+snap/0a1b/+build/39"
                "Successfully built";
   sample_build "https://api.launchpad.net/devel/~bsi/+snap/0a1b/+build/38"
                "Successfully built";
   sample_build "https://api.launchpad.net/devel/~bsi/+snap/0a1b/+build/37"
                "Failed to build";
   sample_build "https://api.launchpad.net/devel/~bsi/+snap/0a1b/+build/36"
                "Successfully built"].

(** How a row of [get_builds] relates to the build it was made from. *)
Definition row_of (w : World) (build : LpBuild) (row : SnapBuildRow) : Prop :=
  build_id_of (self_link build) = Ok (row_id row) /\
  map_build_and_upload_states w (buildstate build) (store_upload_status build)
    = Ok (row_status row) /\
  row_arch_tag row = arch_tag build /\
  queue_time_of w build row.

(** The loop variable [builders_status] only ever holds what Launchpad
    answered. *)
Definition fetched (w : World) (b : option (gmap string BuilderStatus))
    : Prop :=
  match b with
  | Some m => lp_get_builders_status w = Ok m
  | None => True
  end.

(** The three error types [validate_repo] reports. *)
Definition error_types : list string :=
  ["MISSING_YAML_FILE"; "SNAP_NAME_DOES_NOT_MATCH"; "INVALID_YAML_FILE"].

(** [result["error"]["type"]] *)
Definition error_type (r : pydict) : result value :=
  match getitem "error" (VDict r) with
  | Ok error => getitem "type" error
  | Raise e => Raise e
  end.

(** The shape of what [validate_repo] returns: a boolean ["success"], an
    ["error"] exactly when it is false, and a known error type. *)
Definition well_formed_validation (r : pydict) : Prop :=
  exists success : bool,
    dict_get "success" r = Some (VBool success) /\
    dict_has "error" r = negb success /\
    forall error, dict_get "error" r = Some error ->
      exists type, getitem "type" error = Ok (VStr type) /\ type ∈ error_types.

(** The queue-time sentence read literally: non-null exactly for the
    builds that need building. *)
Definition queue_time_as_claimed (build : LpBuild) (row : SnapBuildRow)
    : Prop :=
  queue_time row <> VNone <-> buildstate build = "Needs building".

Definition queued_build : LpBuild :=
  sample_build "https://api.launchpad.net/devel/~bsi/+snap/0a1b/+build/41"
               "Needs building".

Arguments str_from : simpl never.

(** ** The remaining views

    [get_snap_builds], [post_disconnect_repo] and [post_update_gh_webhooks]
    use a few more calls than the views above, so their traces range over
    a wider alphabet and their world has a few more answers. *)

Inductive more_event :=
| Core (e : event)
| LpDeleteSnap (name : string)
| GhGetUser
| GhGetOrgs
| GhRemoveHook (owner repo : string) (hook : Z)
| GhUpdateHookUrl (owner repo : string) (hook : Z) (url : string).

Record MoreWorld := {
  core : World;
  lp_delete_snap : string -> result unit;
  gh_get_user : option string -> result value;
  gh_get_orgs : option string -> result value;
  gh_remove_hook : option string -> string -> string -> Z -> result unit;
  gh_update_hook_url :
    option string -> string -> string -> Z -> string -> result unit;
}.

Definition MX (A : Type) : Type := result A * list more_event.

#[global] Instance MX_ret : MRet MX := fun A a => (Ok a, []).

#[global] Instance MX_bind : MBind MX := fun A B f m =>
  match m with
  | (Ok a, t) => let '(r, t') := f a in (r, t ++ t')
  | (Raise e, t) => (Raise e, t)
  end.

(** A computation of the core views, run inside one of these. *)
Definition widen {A} (m : M A) : MX A := (m.1, Core <$> m.2).

Definition xcall {A} (ev : more_event) (answer : result A) : MX A :=
  (answer, [ev]).

Definition xtry_except {A} (body : MX A) (h : exn -> option (MX A)) : MX A :=
  match body with
  | (Ok a, t) => (Ok a, t)
  | (Raise e, t) =>
      match h e with
      | Some k => let '(r, t') := k in (r, t ++ t')
      | None => (Raise e, t)
      end
  end.

(** The template context of [get_snap_builds]; [None] is an absent key. *)
Record BuildsContext := {
  bc_snap_id : string;
  bc_snap_name : string;
  bc_snap_title : string;
  snap_builds_enabled : bool;
  bc_snap_builds : list SnapBuildRow;
  bc_total_builds : nat;
  github_repository : option string;
  yaml_file_exists : option (option string);
  github_user : option value;
  github_orgs : option value;
}.

Inductive more_response :=
| Plain (r : response)
| RenderBuilds (context : BuildsContext).

(** The except clauses shared by the views: what is returned for an error
    of the dashboard API, [None] for an exception that is not caught. *)
Definition api_error_response (w : World) (snap_name : string) (e : exn)
    : option (M response) :=
  match e with
  | ApiResponseErrorList code errors =>
      Some (if code =? 404
            then raise (NotFound ("No snap named " +:+ snap_name))
            else page ← lift (handle_error_list w errors);
                 mret (ErrorPage page))
  | ApiError _ => Some (page ← lift (handle_error w e); mret (ErrorPage page))
  | _ => None
  end.

(** ** get_snap_builds *)

Definition get_snap_builds (x : MoreWorld) (req : Request)
    (snap_name : string) : MX more_response :=
  let w := core x in
  d ← xtry_except (A := response + SnapDetails)
        (details ← widen (call (ApiGetSnapInfo snap_name)
                               (api_get_snap_info w snap_name));
         _ ← widen (call (ApiGetPackageUploadMacaroon snap_name)
                         (api_get_package_upload_macaroon w snap_name));
         mret (inr details))
        (fun e =>
           (fun m : M response => r ← widen m; mret (inl r))
             <$> api_error_response w snap_name e);
  match d with
  | inl early => mret (Plain early)
  | inr details =>
      lp_snap ← widen (call (LpGetSnapByStoreName (details_snap_name details))
                  (lp_get_snap_by_store_name w (details_snap_name details)));
      match lp_snap with
      | Some lp_snap =>
          let token := match github_auth_secret req with
                       | Some secret => Some secret
                       | None => GITHUB_SNAPCRAFT_USER_TOKEN w
                       end in
          let repository := str_from 19 (git_repository_url lp_snap) in
          '(github_owner, github_repo) ←
            widen (lift (unpack_repository (Some repository)));
          location ← widen (call (GhGetSnapcraftYamlLocation github_owner
                                                             github_repo)
            (gh_get_snapcraft_yaml_location w token github_owner github_repo));
          _ ← (if negb (truthy location)
               then widen (flash
                      "This repository doesn't contain a snapcraft.yaml"
                      "negative")
               else mret tt);
          b ← widen (get_builds w lp_snap (Slice 0 BUILDS_PER_PAGE));
          mret (RenderBuilds {|
            bc_snap_id := snap_id details;
            bc_snap_name := details_snap_name details;
            bc_snap_title := details_title details;
            snap_builds_enabled :=
              match snap_builds b with [] => false | _ => true end;
            bc_snap_builds := snap_builds b;
            bc_total_builds := total_builds b;
            github_repository := Some repository;
            yaml_file_exists := Some location;
            github_user := None;
            github_orgs := None |})
      | None =>
          user ← xtry_except
                   (xcall GhGetUser (gh_get_user x (github_auth_secret req)))
                   (fun e =>
                      match e with
                      | Unauthorized => Some (mret VNone)
                      | _ => None
                      end);
          orgs ← (if value_truthy user
                  then o ← xcall GhGetOrgs
                             (gh_get_orgs x (github_auth_secret req));
                       mret (Some o)
                  else mret None);
          mret (RenderBuilds {|
            bc_snap_id := snap_id details;
            bc_snap_name := details_snap_name details;
            bc_snap_title := details_title details;
            snap_builds_enabled := false;
            bc_snap_builds := [];
            bc_total_builds := 0;
            github_repository := None;
            yaml_file_exists := None;
            github_user := Some user;
            github_orgs := orgs |})
      end
  end.

(** ** get_validate_repo

    [repo_arg] is [flask.request.args.get("repo")]. *)
Definition get_validate_repo (w : World) (req : Request)
    (repo_arg : option string) (snap_name : string) : M response :=
  d ← get_details_or_respond w snap_name;
  match d with
  | inl early => mret early
  | inr details =>
      '(owner, repo) ← lift (unpack_repository repo_arg);
      r ← validate_repo w (github_auth_secret req)
                        (Some (details_snap_name details)) owner repo;
      mret (Jsonify r)
  end.

(** ** post_disconnect_repo *)

Definition post_disconnect_repo (x : MoreWorld) (req : Request)
    (snap_name : string) : MX response :=
  let w := core x in
  d ← widen (get_details_or_respond w snap_name);
  match d with
  | inl early => mret early
  | inr details =>
      lp_snap ← widen (call (LpGetSnapByStoreName snap_name)
                            (lp_get_snap_by_store_name w snap_name));
      _ ← xcall (LpDeleteSnap (details_snap_name details))
                (lp_delete_snap x (details_snap_name details));
      _ ← (if truthy (github_auth_secret req) then
             xtry_except
               (lp_snap ← widen (lift (subscript_snap lp_snap));
                '(gh_owner, gh_repo) ←
                  widen (lift (unpack_repository
                           (Some (str_from 19 (git_repository_url lp_snap)))));
                old_hook ← widen (call (GhGetHookByUrl gh_owner gh_repo
                                                       (webhook_url snap_name))
                  (gh_get_hook_by_url w (github_auth_secret req) gh_owner
                                      gh_repo (webhook_url snap_name)));
                match old_hook with
                | Some old_hook =>
                    xcall (GhRemoveHook gh_owner gh_repo (hook_id old_hook))
                      (gh_remove_hook x (github_auth_secret req) gh_owner
                                      gh_repo (hook_id old_hook))
                | None => mret tt
                end)
               (fun e =>
                  match e with
                  | HTTPError _ => Some (mret tt)
                  | _ => None
                  end)
           else mret tt);
      mret (Redirect (url_for_get_snap_builds w snap_name))
  end.

(** ** post_update_gh_webhooks *)

Definition old_webhook_url (gh_owner gh_repo : string) : string :=
  "https://build.snapcraft.io/" +:+ gh_owner +:+ "/" +:+ gh_repo +:+
  "/webhook/notify".

Definition post_update_gh_webhooks (x : MoreWorld) (req : Request)
    (snap_name : string) : MX response :=
  let w := core x in
  d ← widen (get_details_or_respond w snap_name);
  match d with
  | inl early => mret early
  | inr details =>
      lp_snap ← widen (call (LpGetSnapByStoreName (details_snap_name details))
                  (lp_get_snap_by_store_name w (details_snap_name details)));
      lp_snap ← widen (lift (subscript_snap lp_snap));
      let gh_link := str_from 19 (git_repository_url lp_snap) in
      '(gh_owner, gh_repo) ← widen (lift (unpack_repository (Some gh_link)));
      let old_url := old_webhook_url gh_owner gh_repo in
      old_hook ← widen (call (GhGetHookByUrl gh_owner gh_repo old_url)
        (gh_get_hook_by_url w (github_auth_secret req) gh_owner gh_repo
                            old_url));
      _ ← match old_hook with
          | Some old_hook =>
              xcall (GhUpdateHookUrl gh_owner gh_repo (hook_id old_hook)
                                     (webhook_url snap_name))
                (gh_update_hook_url x (github_auth_secret req) gh_owner
                   gh_repo (hook_id old_hook) (webhook_url snap_name))
          | None => mret tt
          end;
      mret (Redirect (url_for_get_snap_builds w snap_name))
  end.

(** ** Vocabulary of the further properties *)

(** How many events of a trace satisfy [p]. *)
Fixpoint count (p : event -> bool) (t : list event) : nat :=
  match t with
  | [] => 0
  | e :: t' => (if p e then 1 else 0) + count p t'
  end.

Definition is_builders_status (e : event) : bool :=
  match e with LpGetBuildersStatus => true | _ => false end.

Definition needs_building (build : LpBuild) : Prop :=
  buildstate build = "Needs building".

(** The fields of a row that are copied from the build as they are. *)
Definition copied_fields (build : LpBuild) (row : SnapBuildRow) : Prop :=
  row_arch_tag row = arch_tag build /\
  row_datebuilt row = datebuilt build /\
  row_duration row = duration build /\
  row_logs row = build_log_url build /\
  row_revision_id row = revision_id build /\
  row_title row = title build.

(** A queued build for an architecture the sample builders do not know. *)
Definition armhf_build : LpBuild := {|
  self_link := "https://api.launchpad.net/devel/~bsi/+snap/0a1b/+build/42";
  arch_tag := "armhf";
  datebuilt := VNone;
  duration := VNone;
  build_log_url := VNone;
  revision_id := VNone;
  buildstate := "Needs building";
  store_upload_status := None;
  title := VStr "armhf build of toto";
|}.

(** [result["error"]["message"]] *)
Definition error_message (r : pydict) : result value :=
  match getitem "error" (VDict r) with
  | Ok error => getitem "message" error
  | Raise e => Raise e
  end.

(** The checks a push has to pass before the webhook validates the
    repository: its [ref] without the first eleven characters is the
    default branch, Launchpad knows the snap, the snap is built from the
    pushed repository, and the signature holds. *)
Definition webhook_guards (w : World) (req : Request)
    (snap_name : option string) (lp_snap : LpSnap) : Prop :=
  repository_default_branch (json req) = str_from 11 (ref (json req)) /\
  outcome (find_webhook_snap w snap_name (repository_html_url (json req)))
    = Ok (Some lp_snap) /\
  git_repository_url lp_snap = repository_html_url (json req) /\
  gh_validate_webhook_signature w (data req) (x_hub_signature req) = Ok true.

(** The validation the webhook runs for a push. *)
Definition validation_of (w : World) (req : Request) (lp_snap : LpSnap)
    : M pydict :=
  validate_repo w (GITHUB_SNAPCRAFT_USER_TOKEN w) (store_name lp_snap)
    (repository_owner_login (json req)) (repository_name (json req)).

Definition is_cancel (e : event) : bool :=
  match e with LpCancelSnapBuilds _ => true | _ => false end.

Definition is_create_snap (e : event) : bool :=
  match e with LpCreateSnap _ _ _ => true | _ => false end.

Definition is_delete_request (e : event) : bool :=
  match e with LpRequestDelete _ => true | _ => false end.

(** What [post_snap_builds] checks before it looks the snap up in
    Launchpad: the user is a contributor of the snap, the form names a
    repository the user has rights over, and the repository validates. *)
Definition connect_guards (w : World) (req : Request) (snap_name : string)
    (details : SnapDetails) (owner repo : string) : Prop :=
  api_get_snap_info w snap_name = Ok details /\
  (exists account_snaps,
     api_get_account_snaps w = Ok account_snaps /\
     snap_name ∈ account_snaps) /\
  unpack_repository (form_github_repository req) = Ok (owner, repo) /\
  gh_check_permissions_over_repo w (github_auth_secret req) owner repo
    = Ok true /\
  exists r,
    outcome (validate_repo w (github_auth_secret req) (Some snap_name)
                           owner repo) = Ok r /\
    dict_get "success" r = Some (VBool true).

(** The registration that [post_snap_builds] runs for a snap Launchpad
    does not know yet. *)
Definition registration (w : World) (req : Request) (snap_name : string)
    (owner repo : string) : M (option response) :=
  register_repository w req snap_name owner repo (github_url owner repo)
                      (url_for_get_snap_builds w snap_name).

(** The name under which a repository is registered in Launchpad. *)
Definition repository_hash (w : World) (owner repo : string) : string :=
  md5_hexdigest w (github_url owner repo).

(** Launchpad has no snap under the repository's hash: it answers with
    nothing, or with a 404. *)
Definition not_registered (w : World) (owner repo : string) : Prop :=
  lp_get_snap w (repository_hash w owner repo) = Ok None \/
  lp_get_snap w (repository_hash w owner repo) = Raise (HTTPError 404).

Definition LINKED : event :=
  Flash "The GitHub repository was linked correctly." "positive".

Definition HOOK_FAILED : event :=
  Flash ("The GitHub Webhook could not be created. " +:+
         "Please trigger a new build manually.") "caution".

Definition xoutcome {A} (m : MX A) : result A := fst m.
Definition xtrace {A} (m : MX A) : list more_event := snd m.

(** A world for the remaining views, around a core world. *)
Definition sample_more_world (w : World) (user : result value)
    (remove_answer : result unit) : MoreWorld := {|
  core := w;
  lp_delete_snap := fun _ => Ok tt;
  gh_get_user := fun _ => user;
  gh_get_orgs := fun _ => Ok (VDict [("login", VStr "canonical")]);
  gh_remove_hook := fun _ _ _ _ => remove_answer;
  gh_update_hook_url := fun _ _ _ _ _ => Ok tt;
|}.

(** What [flask.abort(404, ...)] raises in the views. *)
Definition no_snap_named (snap_name : string) : exn :=
  NotFound ("No snap named " +:+ snap_name).

(** [sep.join(pieces)] *)
Fixpoint join (sep : string) (pieces : list string) : string :=
  match pieces with
  | [] => EmptyString
  | [piece] => piece
  | piece :: rest => piece +:+ sep +:+ join sep rest
  end.

(** ** Further sample data *)

Definition toto_details : SnapDetails :=
  {| snap_id := "id"; details_snap_name := "toto"; details_title := "Toto" |}.

(** A world like [sample_world], with the answers that decide how a
    repository gets connected left open. *)
Definition scenario_world (info : result SnapDetails)
    (lookup by_hash : result (option LpSnap)) (permitted : bool)
    (yaml_name : result (option string)) (hook : result (option Hook))
    : World := {|
  GITHUB_SNAPCRAFT_USER_TOKEN := Some "token";
  md5_hexdigest := fun _ => "0a1b";
  url_for_get_snap_builds := fun name => "/" +:+ name +:+ "/builds";
  map_build_and_upload_states := fun farm upload =>
    (reconcile sample_table "unknown" farm upload).1;
  handle_error := fun _ => Ok "error";
  handle_error_list := fun _ => Ok "errors";
  api_get_snap_info := fun _ => info;
  api_get_account_snaps := Ok ["toto"];
  api_get_package_upload_macaroon := fun _ => Ok "macaroon";
  lp_get_snap_builds := fun _ => Ok five_builds;
  lp_get_builders_status :=
    Ok {[ "amd64" := {| estimated_duration := VStr "0:05:00" |} ]};
  lp_get_snap_by_store_name := fun _ => lookup;
  lp_get_snap := fun _ => by_hash;
  lp_get_snap_build := fun _ _ => Ok None;
  lp_get_snap_build_log := fun _ _ => Ok "log";
  lp_is_snap_building := fun _ => Ok true;
  lp_cancel_snap_builds := fun _ => Ok tt;
  lp_build_snap := fun _ => Ok tt;
  lp_create_snap := fun _ _ _ => Ok tt;
  lp_request_delete := fun _ => Ok tt;
  gh_get_snapcraft_yaml_location := fun _ _ _ => Ok (Some "snapcraft.yaml");
  gh_get_snapcraft_yaml_name := fun _ _ _ => yaml_name;
  gh_check_permissions_over_repo := fun _ _ _ => Ok permitted;
  gh_validate_webhook_signature := fun _ _ => Ok true;
  gh_get_hook_by_url := fun _ _ _ _ => hook;
  gh_create_hook := fun _ _ _ _ => Ok tt;
|}.

(** Launchpad knows neither the snap nor the repository. *)
Definition fresh_world : World :=
  scenario_world (Ok toto_details) (Ok None) (Ok None) true
                 (Ok (Some "toto")) (Ok None).

(** The repository is registered in Launchpad under [name]. *)
Definition registered_snap (name : option string) : LpSnap := {|
  store_name := name;
  git_repository_url := "https://github.com/canonical/toto";
  snap_self_link := "https://api.launchpad.net/devel/~bsi/+snap/0a1b";
|}.

(** A push event of another repository than the snap's. *)
Definition foreign_request : Request := {|
  github_auth_secret := Some "secret";
  arg_start := None;
  arg_size := None;
  form_github_repository := Some "canonical/toto";
  json := {| repository_html_url := "https://github.com/someone/fork";
             repository_owner_login := "someone";
             repository_name := "fork";
             repository_default_branch := "master";
             ref := "refs/heads/master" |};
  data := "{}";
  x_hub_signature := Some "sha1=00";
|}.

(** A session without a GitHub token. *)
Definition anonymous_request : Request := {|
  github_auth_secret := None;
  arg_start := None;
  arg_size := None;
  form_github_repository := None;
  json := sample_push "master";
  data := "{}";
  x_hub_signature := None;
|}.

(** Launchpad builds the snap from the sample repository. *)
Definition linked_world : World :=
  scenario_world (Ok toto_details)
                 (Ok (Some (registered_snap (Some "toto"))))
                 (Ok (Some (registered_snap (Some "toto")))) true
                 (Ok (Some "toto")) (Ok None).

(** The claim's words for the pushed branch: the [ref] with its
    refs-prefix stripped, that is the text after ["refs/<kind>/"]. *)
Definition ref_name (ref : string) : string :=
  match split "/" ref with
  | "refs" :: _ :: name :: rest => join "/" (name :: rest)
  | _ => ref
  end.

(** The push of a tag named vmaster to the sample repository. *)
Definition tag_push_request : Request := {|
  github_auth_secret := None;
  arg_start := None;
  arg_size := None;
  form_github_repository := None;
  json := {| repository_html_url := "https://github.com/canonical/toto";
             repository_owner_login := "canonical";
             repository_name := "toto";
             repository_default_branch := "master";
             ref := "refs/tags/vmaster" |};
  data := "{}";
  x_hub_signature := Some "sha1=00";
|}.

(** The record [get_snap_build] makes of a build of Launchpad. *)
Definition snap_build_of (lp_build : LpBuild) (ident status : string)
    : SnapBuild := {|
  id := ident;
  sb_arch_tag := arch_tag lp_build;
  sb_datebuilt := datebuilt lp_build;
  sb_duration := duration lp_build;
  logs := build_log_url lp_build;
  sb_revision_id := revision_id lp_build;
  status := status;
  sb_title := title lp_build;
|}.

(** The template context of [get_snap_build] for a snap. *)
Definition build_context (details : SnapDetails)
    (snap_build : option SnapBuild) (raw_logs : option string)
    : BuildContext := {|
  ctx_snap_id := snap_id details;
  ctx_snap_name := details_snap_name details;
  ctx_snap_title := details_title details;
  ctx_snap_build := snap_build;
  ctx_raw_logs := raw_logs;
|}.

(** * Properties *)

(** ** Strings and slices *)

(** On text without non-ASCII bytes, dropping code points is dropping
    bytes. *)
Lemma str_from_ascii n : forall s,
  Forall (fun c => (N_of_ascii c < 128)%N) (list_ascii_of_string s) ->
  str_from n s = drop_bytes n s.
Proof.
  induction n as [|n IH]; intros [|c s]; try done.
  intros Hall. inversion Hall as [|? ? Hc Hrest]; subst.
  change (str_from (S n) (String c s))
    with (str_from n (drop_bytes (code_point_width c - 1) s)).
  unfold code_point_width.
  destruct (N.ltb_spec (N_of_ascii c) 192) as [_|Hge]; [|lia].
  simpl. by apply IH.
Qed.

(** A two-byte character counts as one: the text after the first code
    point of the encoding of an accented e followed by x is x. *)
Lemma str_from_two_bytes :
  str_from 1 (String (ascii_of_nat 195) (String (ascii_of_nat 169) "x")) = "x".
Proof. reflexivity. Qed.

Lemma split_nonempty sep s : split sep s <> [].
Proof.
  destruct s as [|c s]; simpl; [done|].
  destruct (Ascii.eqb c sep); [done|].
  by destruct (split sep s).
Qed.

Lemma split_no_slash s : Forall (fun piece => no_slash piece = true) (split "/" s).
Proof.
  induction s as [|c s IH]; simpl.
  - by constructor.
  - destruct (Ascii.eqb c "/") eqn:Hc.
    + by constructor.
    + inversion IH as [|piece pieces Hp Hps Heq];
        constructor; simpl; rewrite ?Hc; done.
Qed.

Lemma split_snoc s : forall pieces seg,
  split "/" s = pieces ++ [seg] ->
  (pieces = [] /\ s = seg) \/
  (pieces <> [] /\ exists front, s = front +:+ "/" +:+ seg).
Proof.
  induction s as [|c s IH]; intros pieces seg; simpl.
  - destruct pieces as [|p [|q pieces]]; simpl; intros H; inversion H; auto.
  - destruct (Ascii.eqb c "/") eqn:Hc.
    + apply Ascii.eqb_eq in Hc as ->.
      destruct pieces as [|p pieces]; simpl; intros H.
      * inversion H as [[H1 H2]]. by apply split_nonempty in H2.
      * inversion H as [[H1 H2]]. right. split; [done|].
        destruct (IH _ _ H2) as [[-> ->]|[_ [front ->]]].
        -- by exists EmptyString.
        -- by exists (String "/" front).
    + destruct (split "/" s) as [|piece rest] eqn:Hs.
      { by apply split_nonempty in Hs. }
      destruct pieces as [|p pieces]; simpl; intros H.
      * inversion H as [[H1 H2]]. subst rest. left. split; [done|].
        destruct (IH [] piece eq_refl) as [[_ ->]|[Hne _]]; done.
      * inversion H as [[H1 H2]]. subst rest p. right. split; [done|].
        destruct (IH (piece :: pieces) seg eq_refl) as [[Hnil _]|[_ [front ->]]];
          [done|].
        by exists (String c front).
Qed.

(** The embedded [link.split("/")[-1]] always yields a value, and it is the
    trailing segment. *)
Lemma build_id_of_trailing link :
  exists seg, build_id_of link = Ok seg /\ trailing_segment link seg.
Proof.
  unfold build_id_of, item_last.
  destruct (exists_last (split_nonempty "/" link)) as (ps & p & Hs).
  rewrite Hs, last_snoc. exists p. split; [done|]. split.
  - pose proof (split_no_slash link) as Hall. rewrite Hs in Hall.
    apply Forall_app in Hall as [_ Hall]. by inversion Hall.
  - destruct (split_snoc _ _ _ Hs) as [[_ ->]|[_ Hfront]]; auto.
Qed.

Lemma build_id_of_ok link seg :
  build_id_of link = Ok seg -> trailing_segment link seg.
Proof.
  destruct (build_id_of_trailing link) as (seg' & Heq & Hseg).
  rewrite Heq. by intros [= <-].
Qed.

Lemma append_nil s : EmptyString +:+ s = s.
Proof. reflexivity. Qed.

Lemma append_cons c s1 s2 : String c s1 +:+ s2 = String c (s1 +:+ s2).
Proof. reflexivity. Qed.

Lemma no_slash_app front seg : no_slash (front +:+ String "/" seg) = false.
Proof.
  induction front as [|c front IH]; rewrite ?append_cons, ?append_nil; simpl;
    [done|].
  rewrite IH. apply andb_false_r.
Qed.

(** A URL has one trailing segment, so the relation fixes the id. *)
Lemma trailing_segment_unique url a b :
  trailing_segment url a -> trailing_segment url b -> a = b.
Proof.
  intros [Ha Hua] [Hb Hub].
  assert (Hcore : forall f1 f2,
             f1 +:+ String "/" a = f2 +:+ String "/" b -> a = b).
  { induction f1 as [|c f1 IH]; intros [|c' f2];
      rewrite ?append_cons, ?append_nil; intros H.
    - by injection H.
    - injection H as Hc Hrest. by rewrite Hrest, no_slash_app in Ha.
    - injection H as Hc Hrest. by rewrite <- Hrest, no_slash_app in Hb.
    - injection H as Hc Hrest. eauto. }
  destruct Hua as [Hua|[f1 Hua]], Hub as [Hub|[f2 Hub]];
    rewrite ?append_cons, ?append_nil in *.
  - congruence.
  - rewrite <- Hua, Hub, no_slash_app in Ha. done.
  - rewrite <- Hub, Hua, no_slash_app in Hb. done.
  - rewrite Hua in Hub. eauto.
Qed.

(** ** The rows of get_builds *)

Lemma get_builds_loop_rows w builds : forall status rows t,
  fetched w status ->
  get_builds_loop w builds status = (Ok rows, t) ->
  Forall2 (row_of w) builds rows.
Proof.
  induction builds as [|build rest IH]; intros bs rows t Hbs; simpl.
  - intros [= <- <-]. constructor.
  - unfold lift, mbind, M_bind, mret, M_ret, call, raise.
    destruct (map_build_and_upload_states w _ _) as [st|e] eqn:Hst; [|done].
    destruct (build_id_of _) as [ident|e] eqn:Hid; [|done].
    destruct (String.eqb (buildstate build) "Needs building") eqn:Hstate.
    + apply String.eqb_eq in Hstate.
      destruct (builders_truthy bs) eqn:Htruthy.
      * destruct bs as [m|]; [|done]. simpl in Hbs. simpl.
        destruct (m !! arch_tag build) as [info|] eqn:Hinfo; [|done].
        destruct (get_builds_loop w rest (Some m)) as [[rows'|e] t'] eqn:Hrest;
          [|done].
        intros [= <- <-]. constructor; [|by apply (IH (Some m) _ _ Hbs Hrest)].
        repeat split; try done. right. split; [done|]. by exists m, info.
      * destruct (lp_get_builders_status w) as [m|e] eqn:Hm; [|done]. simpl.
        destruct (m !! arch_tag build) as [info|] eqn:Hinfo; [|done].
        destruct (get_builds_loop w rest (Some m)) as [[rows'|e] t'] eqn:Hrest;
          [|done].
        intros [= <- <-]. constructor; [|by apply (IH (Some m) _ _ Hm Hrest)].
        repeat split; try done. right. split; [done|]. by exists m, info.
    + apply String.eqb_neq in Hstate. simpl.
      destruct (get_builds_loop w rest bs) as [[rows'|e] t'] eqn:Hrest; [|done].
      intros [= <- <-]. constructor; [|by apply (IH _ _ _ Hbs Hrest)].
      repeat split; try done. by left.
Qed.

Lemma get_builds_inv w lp_snap selection b t :
  get_builds w lp_snap selection = (Ok b, t) ->
  exists builds,
    lp_get_snap_builds w (store_name lp_snap) = Ok builds /\
    total_builds b = length builds /\
    Forall2 (row_of w) (getslice builds selection) (snap_builds b).
Proof.
  unfold get_builds, mbind, M_bind, mret, M_ret, call.
  destruct (lp_get_snap_builds w _) as [builds|e]; [|done].
  destruct (get_builds_loop w _ None) as [[rows|e] t'] eqn:Hloop; [|done].
  intros [= <- <-]. exists builds. repeat split.
  by apply (get_builds_loop_rows _ _ None _ _ I Hloop).
Qed.

Lemma getslice_nonneg {A} (l : list A) start stop :
  0 <= start -> 0 <= stop ->
  getslice l (Slice start stop) =
  take (Z.to_nat stop - Z.to_nat start) (drop (Z.to_nat start) l).
Proof.
  intros Hs Ht. unfold getslice, adjust_index. simpl.
  destruct (Z.ltb_spec start 0); [lia|]. destruct (Z.ltb_spec stop 0); [lia|].
  destruct (decide (Z.of_nat (length l) <= start)).
  - rewrite !drop_ge by lia. by rewrite !take_nil.
  - replace (Z.to_nat (Z.min start (Z.of_nat (length l)))) with (Z.to_nat start) by lia.
    destruct (decide (stop <= Z.of_nat (length l))).
    + f_equal. lia.
    + rewrite !take_ge; [done| |]; rewrite length_drop; lia.
Qed.

Lemma getslice_first_page {A} (l : list A) size :
  0 <= size -> getslice l (Slice 0 size) = page_of_spec 0 size l.
Proof.
  intros H. rewrite getslice_nonneg by lia. unfold page_of_spec.
  f_equal. lia.
Qed.

(** When [stop] does not exceed [start] the slice is empty, whatever the
    list: the pages after the first, asked for as [start=k*size], hold
    nothing. *)
Lemma getslice_stop_before_start {A} (l : list A) start stop :
  0 <= stop <= start -> getslice l (Slice start stop) = [].
Proof.
  intros H. rewrite getslice_nonneg by lia.
  by replace (Z.to_nat stop - Z.to_nat start)%nat with 0%nat by lia.
Qed.

Lemma getslice_length {A} (l : list A) selection :
  (length (getslice l selection) <= length l)%nat.
Proof.
  unfold getslice. rewrite length_take, length_drop. lia.
Qed.

Lemma get_builds_loop_returns w m builds :
  lp_get_builders_status w = Ok m ->
  Forall (fun build =>
            (exists s, map_build_and_upload_states w (buildstate build)
                         (store_upload_status build) = Ok s) /\
            (buildstate build = "Needs building" ->
             is_Some (m !! arch_tag build))) builds ->
  forall status, fetched w status ->
  exists rows t, get_builds_loop w builds status = (Ok rows, t).
Proof.
  intros Hm. induction 1 as [|build rest [[s Hs] Harch] _ IH]; intros bs Hbs.
  - by eexists _, _.
  - simpl. unfold lift, call, raise, mbind, M_bind, mret, M_ret. rewrite Hs.
    destruct (build_id_of_trailing (self_link build)) as (seg & -> & _).
    destruct (String.eqb (buildstate build) "Needs building") eqn:Hstate.
    + apply String.eqb_eq in Hstate. destruct (Harch Hstate) as [info Hinfo].
      destruct (builders_truthy bs) eqn:Htruthy.
      * destruct bs as [m'|]; [|done]. simpl in Hbs.
        assert (m' = m) as -> by congruence. simpl. rewrite Hinfo.
        destruct (IH (Some m) Hm) as (rows & t & ->). by eexists _, _.
      * rewrite Hm. simpl. rewrite Hinfo.
        destruct (IH (Some m) Hm) as (rows & t & ->). by eexists _, _.
    + simpl. destruct (IH bs Hbs) as (rows & t & ->). by eexists _, _.
Qed.

(** get_builds answers whenever Launchpad does and the architectures of
    the queued builds are known to the builders. *)
Lemma get_builds_returns w lp_snap selection builds m :
  lp_get_snap_builds w (store_name lp_snap) = Ok builds ->
  lp_get_builders_status w = Ok m ->
  Forall (fun build =>
            (exists s, map_build_and_upload_states w (buildstate build)
                         (store_upload_status build) = Ok s) /\
            (buildstate build = "Needs building" ->
             is_Some (m !! arch_tag build))) (getslice builds selection) ->
  exists b t, get_builds w lp_snap selection = (Ok b, t).
Proof.
  intros Hb Hm Hall. unfold get_builds, call, mbind, M_bind, mret, M_ret.
  rewrite Hb.
  destruct (get_builds_loop_returns _ _ _ Hm Hall None I) as (rows & t & ->).
  by eexists _, _.
Qed.

(** ** Tactics for the view functions *)

Ltac unfold_monad :=
  unfold lift, call, raise, flash, try_except, mbind, M_bind, mret, M_ret,
    outcome, trace in *.

(** Case analysis on every answer the world can give. *)
Ltac run := repeat (simpl in *; case_match; simplify_eq/=).

(** ** The webhook *)

(** When the [ref] without its first eleven characters is not the default
    branch, the webhook answers with the no-op message and status 200
    before it calls anything. *)
Lemma post_github_webhook_guard_fails w req snap_name :
  repository_default_branch (json req) <> str_from 11 (ref (json req)) ->
  post_github_webhook w req snap_name
    = (Ok (Body "The push event is not for the default branch" 200), []).
Proof.
  intros Hne. apply String.eqb_neq in Hne.
  unfold post_github_webhook. by rewrite Hne.
Qed.

(** For the push of a branch, [refs/heads/<branch>], the eleven characters
    are the prefix: a push to another branch than the default one is a
    no-op. *)
Lemma post_github_webhook_other_branch_push w req snap_name branch :
  ref (json req) = "refs/heads/" +:+ branch ->
  branch <> repository_default_branch (json req) ->
  post_github_webhook w req snap_name
    = (Ok (Body "The push event is not for the default branch" 200), []).
Proof.
  intros Href Hne. apply post_github_webhook_guard_fails.
  rewrite Href. change (str_from 11 ("refs/heads/" +:+ branch)) with branch.
  congruence.
Qed.

(** C2: the push of the tag vmaster to a repository whose default branch
    is master.  The ref without its refs-prefix is vmaster, which is not
    the default branch, yet the webhook answers 204 and calls
    [launchpad.build_snap]: [ref[11:]] drops the ten characters of
    [refs/tags/] and the first one of the tag's name. *)
Theorem post_github_webhook_tag_push :
  ref_name (ref (json tag_push_request)) = "vmaster" /\
  ref_name (ref (json tag_push_request))
    <> repository_default_branch (json tag_push_request) /\
  str_from 11 (ref (json tag_push_request)) = "master" /\
  outcome (post_github_webhook linked_world tag_push_request (Some "toto"))
    = Ok (Body EmptyString 204) /\
  In (LpBuildSnap (Some "toto"))
     (trace (post_github_webhook linked_world tag_push_request (Some "toto"))).
Proof.
  split; [reflexivity|]. split; [discriminate|]. split; [reflexivity|].
  split; [reflexivity|]. vm_compute. tauto.
Qed.

(** C1, as amended: when the signature check fails, no request reaches
    [launchpad.build_snap]; the answer is 403 whenever the push is for the
    default branch and Launchpad returns a snap for the lookup. *)
Theorem post_github_webhook_invalid_signature w req snap_name :
  gh_validate_webhook_signature w (data req) (x_hub_signature req) = Ok false ->
  existsb is_build_snap (trace (post_github_webhook w req snap_name)) = false /\
  (repository_default_branch (json req) = str_from 11 (ref (json req)) ->
   forall lp_snap,
     outcome (find_webhook_snap w snap_name (repository_html_url (json req)))
       = Ok (Some lp_snap) ->
     exists body,
       outcome (post_github_webhook w req snap_name) = Ok (Body body 403)).
Proof.
  intros Hsig. split.
  - unfold post_github_webhook, find_webhook_snap. unfold_monad.
    rewrite Hsig. run; done.
  - intros Hbranch lp_snap Hfind. apply String.eqb_eq in Hbranch.
    unfold post_github_webhook. rewrite Hbranch. unfold_monad. simpl.
    destruct (find_webhook_snap w snap_name _) as [r t]. simpl in Hfind.
    subst r. simpl. rewrite Hsig.
    destruct (String.eqb (git_repository_url lp_snap) _); simpl; eauto.
Qed.

Lemma post_github_webhook_invalid_signature_witness :
  gh_validate_webhook_signature
    (sample_world false (Ok (Some "toto")) [] VNone (Ok tt))
    (data (sample_request "master" None None))
    (x_hub_signature (sample_request "master" None None)) = Ok false /\
  existsb is_build_snap
    (trace (post_github_webhook
              (sample_world false (Ok (Some "toto")) [] VNone (Ok tt))
              (sample_request "master" None None) (Some "toto"))) = false /\
  exists body,
    outcome (post_github_webhook
               (sample_world false (Ok (Some "toto")) [] VNone (Ok tt))
               (sample_request "master" None None) (Some "toto"))
      = Ok (Body body 403).
Proof.
  split; [reflexivity|].
  destruct (post_github_webhook_invalid_signature
              (sample_world false (Ok (Some "toto")) [] VNone (Ok tt))
              (sample_request "master" None None) (Some "toto") eq_refl)
    as [Hquiet Hanswer].
  split; [exact Hquiet|].
  exact (Hanswer eq_refl sample_snap eq_refl).
Defined.

(** C1 as stated fails: a push to another branch with a bad signature is
    answered 200, because the branch is checked before the signature. *)
Lemma post_github_webhook_invalid_signature_200 :
  gh_validate_webhook_signature
    (sample_world false (Ok (Some "toto")) [] VNone (Ok tt))
    (data (sample_request "feature" None None))
    (x_hub_signature (sample_request "feature" None None)) = Ok false /\
  outcome (post_github_webhook
             (sample_world false (Ok (Some "toto")) [] VNone (Ok tt))
             (sample_request "feature" None None) (Some "toto"))
    = Ok (Body "The push event is not for the default branch" 200) /\
  forall body,
    outcome (post_github_webhook
               (sample_world false (Ok (Some "toto")) [] VNone (Ok tt))
               (sample_request "feature" None None) (Some "toto"))
      <> Ok (Body body 403).
Proof. by repeat split. Qed.

(** ** validate_repo and connecting a repository *)

Ltac solve_well_formed :=
  eexists; split; [reflexivity|]; split; [reflexivity|];
  intros ? [= <-]; eexists; split; [reflexivity|]; unfold error_types;
  rewrite !elem_of_cons; tauto.

Lemma validate_repo_well_formed w github_token snap_name gh_owner gh_repo r :
  outcome (validate_repo w github_token snap_name gh_owner gh_repo) = Ok r ->
  well_formed_validation r.
Proof.
  unfold validate_repo, fail_with. unfold_monad.
  destruct (gh_get_snapcraft_yaml_location w _ _ _) as [loc|e]; [|done].
  simpl. destruct (truthy loc); simpl.
  - destruct (gh_get_snapcraft_yaml_name w _ _ _) as [name|[]]; simpl;
      try done.
    + destruct (bool_decide (name = snap_name)); simpl; intros [= <-].
      * exists true. by repeat split.
      * solve_well_formed.
    + intros [= <-]. solve_well_formed.
  - intros [= <-]. solve_well_formed.
Qed.

(** C9: whatever [validate_repo] returns is a dict with a boolean
    ["success"], with an ["error"] exactly when success is false, whose type
    is one of the three known ones; and a snapcraft.yaml that fails to parse
    ([InvalidYAML]) is reported as INVALID_YAML_FILE instead of raised. *)
Theorem validate_repo_result w github_token snap_name gh_owner gh_repo :
  (forall r,
     outcome (validate_repo w github_token snap_name gh_owner gh_repo) = Ok r ->
     well_formed_validation r) /\
  (forall yaml_location,
     gh_get_snapcraft_yaml_location w github_token gh_owner gh_repo
       = Ok yaml_location ->
     truthy yaml_location = true ->
     gh_get_snapcraft_yaml_name w github_token gh_owner gh_repo
       = Raise InvalidYAML ->
     exists r,
       outcome (validate_repo w github_token snap_name gh_owner gh_repo) = Ok r /\
       error_type r = Ok (VStr "INVALID_YAML_FILE")).
Proof.
  split; [apply validate_repo_well_formed|].
  intros loc Hloc Htruthy Hname.
  unfold validate_repo, fail_with. unfold_monad.
  rewrite Hloc. simpl. rewrite Htruthy, Hname. simpl. eauto.
Qed.

Lemma validate_repo_result_witness :
  exists r,
    outcome (validate_repo
               (sample_world true (Raise InvalidYAML) [] VNone (Ok tt))
               (Some "secret") (Some "toto") "canonical" "toto") = Ok r /\
    well_formed_validation r /\
    error_type r = Ok (VStr "INVALID_YAML_FILE").
Proof.
  destruct (validate_repo_result
              (sample_world true (Raise InvalidYAML) [] VNone (Ok tt))
              (Some "secret") (Some "toto") "canonical" "toto")
    as [Hshape Hinvalid].
  destruct (Hinvalid (Some "snapcraft.yaml") eq_refl eq_refl eq_refl)
    as (r & Hr & Htype).
  exists r. split; [exact Hr|]. split; [exact (Hshape r Hr)|exact Htype].
Defined.

Lemma validate_repo_mismatch w token snap_name owner repo yaml_location
    gh_snap_name :
  gh_get_snapcraft_yaml_location w token owner repo = Ok yaml_location ->
  truthy yaml_location = true ->
  gh_get_snapcraft_yaml_name w token owner repo = Ok gh_snap_name ->
  gh_snap_name <> snap_name ->
  validate_repo w token snap_name owner repo =
    (Ok [("success", VBool false);
         ("error",
          VDict [("type", VStr "SNAP_NAME_DOES_NOT_MATCH");
                 ("message",
                  VStr (name_mismatch_message gh_snap_name snap_name));
                 ("yaml_location", value_of_opt yaml_location);
                 ("gh_snap_name", value_of_opt gh_snap_name)])],
     [GhGetSnapcraftYamlLocation owner repo;
      GhGetSnapcraftYamlName owner repo]).
Proof.
  intros Hloc Htruthy Hname Hne. unfold validate_repo, fail_with.
  unfold_monad. rewrite Hloc. simpl. rewrite Htruthy, Hname. simpl.
  by rewrite bool_decide_false.
Qed.

(** C3: when the name in the repository's snapcraft.yaml differs from the
    snap being connected, validation fails with SNAP_NAME_DOES_NOT_MATCH,
    and [post_snap_builds] calls neither [launchpad.create_snap] nor
    [github.create_hook]; a contributor with rights over the repository is
    redirected with the mismatch message flashed. *)
Theorem post_snap_builds_name_mismatch w req snap_name owner repo
    yaml_location gh_snap_name :
  unpack_repository (form_github_repository req) = Ok (owner, repo) ->
  gh_get_snapcraft_yaml_location w (github_auth_secret req) owner repo
    = Ok yaml_location ->
  truthy yaml_location = true ->
  gh_get_snapcraft_yaml_name w (github_auth_secret req) owner repo
    = Ok gh_snap_name ->
  gh_snap_name <> Some snap_name ->
  (exists r,
     outcome (validate_repo w (github_auth_secret req) (Some snap_name)
                            owner repo) = Ok r /\
     dict_get "success" r = Some (VBool false) /\
     error_type r = Ok (VStr "SNAP_NAME_DOES_NOT_MATCH")) /\
  existsb is_create (trace (post_snap_builds w req snap_name)) = false /\
  (forall details account_snaps,
     api_get_snap_info w snap_name = Ok details ->
     api_get_account_snaps w = Ok account_snaps ->
     snap_name ∈ account_snaps ->
     gh_check_permissions_over_repo w (github_auth_secret req) owner repo
       = Ok true ->
     outcome (post_snap_builds w req snap_name)
       = Ok (Redirect (url_for_get_snap_builds w snap_name)) /\
     Flash (name_mismatch_message gh_snap_name (Some snap_name)) "negative"
       ∈ trace (post_snap_builds w req snap_name)).
Proof.
  intros Hunpack Hloc Htruthy Hname Hne.
  pose proof (validate_repo_mismatch _ _ _ _ _ _ _ Hloc Htruthy Hname Hne)
    as Hval.
  split; [|split].
  - rewrite Hval. eexists. split; [reflexivity|]. by split.
  - unfold post_snap_builds, get_details_or_respond. unfold_monad.
    rewrite Hunpack. simpl. rewrite Hval. simpl.
    run; done.
  - intros details account_snaps Hinfo Hacc Hin Hperm.
    unfold post_snap_builds, get_details_or_respond. unfold_monad.
    rewrite Hinfo. simpl. rewrite Hacc. simpl.
    rewrite bool_decide_true by done. simpl. rewrite Hunpack. simpl.
    rewrite Hperm. simpl. rewrite Hval. simpl. split; [done|].
    rewrite !elem_of_cons. tauto.
Qed.

Lemma post_snap_builds_name_mismatch_witness :
  (exists r,
     outcome (validate_repo
                (sample_world true (Ok (Some "titi")) [] VNone (Ok tt))
                (Some "secret") (Some "toto") "canonical" "toto") = Ok r /\
     dict_get "success" r = Some (VBool false) /\
     error_type r = Ok (VStr "SNAP_NAME_DOES_NOT_MATCH")) /\
  existsb is_create
    (trace (post_snap_builds
              (sample_world true (Ok (Some "titi")) [] VNone (Ok tt))
              (sample_request "master" None None) "toto")) = false /\
  outcome (post_snap_builds
             (sample_world true (Ok (Some "titi")) [] VNone (Ok tt))
             (sample_request "master" None None) "toto")
    = Ok (Redirect "/toto/builds").
Proof.
  assert (Hne : Some "titi" <> Some "toto") by discriminate.
  destruct (post_snap_builds_name_mismatch
              (sample_world true (Ok (Some "titi")) [] VNone (Ok tt))
              (sample_request "master" None None) "toto" "canonical" "toto"
              (Some "snapcraft.yaml") (Some "titi")
              eq_refl eq_refl eq_refl eq_refl Hne)
    as (Hfails & Hquiet & Hanswer).
  split; [exact Hfails|]. split; [exact Hquiet|].
  refine (proj1 (Hanswer _ ["toto"] eq_refl eq_refl _ eq_refl)).
  apply list_elem_of_here.
Defined.

(** ** Triggering a build *)

(** C7: when the Launchpad calls of [post_build] fail with an HTTPError
    whose status is 408 or 404, the view answers with the JSON body
    [{"success": false}]; an HTTPError with any other status propagates. *)
Theorem post_build_upstream_errors w snap_name account_snaps code :
  api_get_account_snaps w = Ok account_snaps ->
  snap_name ∈ account_snaps ->
  outcome (cancel_and_build w (Some snap_name)) = Raise (HTTPError code) ->
  (code = 408 \/ code = 404 ->
   outcome (post_build w snap_name) = Ok (Jsonify [("success", VBool false)])) /\
  (code <> 408 -> code <> 404 ->
   outcome (post_build w snap_name) = Raise (HTTPError code)).
Proof.
  intros Hacc Hin Hfail. unfold post_build. unfold_monad.
  rewrite Hacc. simpl. rewrite bool_decide_true by done. simpl.
  destruct (cancel_and_build w (Some snap_name)) as [r t].
  simpl in Hfail. subst r. simpl. split.
  - intros Hcode. rewrite bool_decide_true; [done|].
    destruct Hcode as [-> | ->]; repeat constructor.
  - intros H1 H2. rewrite bool_decide_false; [done|].
    rewrite !elem_of_cons, elem_of_nil. tauto.
Qed.

Lemma post_build_upstream_errors_witness :
  outcome (post_build
             (sample_world true (Ok None) [] VNone (Raise (HTTPError 408)))
             "toto") = Ok (Jsonify [("success", VBool false)]) /\
  outcome (post_build
             (sample_world true (Ok None) [] VNone (Raise (HTTPError 500)))
             "toto") = Raise (HTTPError 500).
Proof.
  split.
  - refine (proj1 (post_build_upstream_errors
                     (sample_world true (Ok None) [] VNone
                                   (Raise (HTTPError 408)))
                     "toto" ["toto"] 408 eq_refl _ eq_refl) _).
    + apply list_elem_of_here.
    + by left.
  - refine (proj2 (post_build_upstream_errors
                     (sample_world true (Ok None) [] VNone
                                   (Raise (HTTPError 500)))
                     "toto" ["toto"] 500 eq_refl _ eq_refl) _ _).
    + apply list_elem_of_here.
    + discriminate.
    + discriminate.
Defined.

(** ** The build records *)

(** C4, as amended: in every record of [get_builds] the queue time is null
    unless the build's state is "Needs building", and then it is the
    estimated duration Launchpad reports for the build's architecture,
    whatever that is. *)
Theorem get_builds_queue_time w lp_snap selection b t :
  get_builds w lp_snap selection = (Ok b, t) ->
  exists builds,
    lp_get_snap_builds w (store_name lp_snap) = Ok builds /\
    Forall2 (queue_time_of w) (getslice builds selection) (snap_builds b).
Proof.
  intros H. destruct (get_builds_inv _ _ _ _ _ H) as (builds & Hb & _ & Hrows).
  exists builds. split; [done|].
  eapply Forall2_impl; [exact Hrows|]. by intros build row (_ & _ & _ & Hq).
Qed.

Lemma get_builds_queue_time_witness :
  exists b t,
    get_builds (sample_world true (Ok None) five_builds (VStr "0:05:00") (Ok tt))
               sample_snap (Slice 0 BUILDS_PER_PAGE) = (Ok b, t) /\
    exists builds,
      Ok five_builds = Ok builds /\
      Forall2 (queue_time_of
                 (sample_world true (Ok None) five_builds (VStr "0:05:00")
                               (Ok tt)))
              (getslice builds (Slice 0 BUILDS_PER_PAGE)) (snap_builds b).
Proof.
  eexists _, _. split; [by vm_compute|].
  apply (get_builds_queue_time
           (sample_world true (Ok None) five_builds (VStr "0:05:00") (Ok tt))
           sample_snap (Slice 0 BUILDS_PER_PAGE) _ _ eq_refl).
Defined.

(** C4 as stated fails: a build that needs building gets a null queue time
    when the builders' estimate for its architecture is null. *)
Lemma get_builds_queue_time_null :
  exists b t,
    get_builds (sample_world true (Ok None) [queued_build] VNone (Ok tt))
               sample_snap (Slice 0 BUILDS_PER_PAGE) = (Ok b, t) /\
    ~ Forall2 queue_time_as_claimed
        (getslice [queued_build] (Slice 0 BUILDS_PER_PAGE)) (snap_builds b).
Proof.
  eexists _, _. split; [by vm_compute|].
  vm_compute. intros H. inversion H as [|build row builds rows Hrow]. subst.
  destruct Hrow as [_ Hrow]. by apply Hrow.
Qed.

(** C8: the id of every record, from [get_builds] and from
    [get_snap_build] alike, is the trailing path segment of the build's
    self link. *)
Theorem build_id_is_trailing_segment w :
  (forall lp_snap selection b t,
     get_builds w lp_snap selection = (Ok b, t) ->
     exists builds,
       lp_get_snap_builds w (store_name lp_snap) = Ok builds /\
       Forall2 (fun build row => trailing_segment (self_link build) (row_id row))
               (getslice builds selection) (snap_builds b)) /\
  (forall snap_name build_id context t snap_build,
     get_snap_build w snap_name build_id = (Ok (RenderBuild context), t) ->
     ctx_snap_build context = Some snap_build ->
     exists lp_build,
       lp_get_snap_build w (ctx_snap_name context) build_id
         = Ok (Some lp_build) /\
       trailing_segment (self_link lp_build) (id snap_build)).
Proof.
  split.
  - intros lp_snap selection b t H.
    destruct (get_builds_inv _ _ _ _ _ H) as (builds & Hb & _ & Hrows).
    exists builds. split; [done|].
    eapply Forall2_impl; [exact Hrows|].
    intros build row (Hid & _). by apply build_id_of_ok.
  - intros snap_name build_id context t snap_build.
    unfold get_snap_build, get_details_or_respond. unfold_monad.
    destruct (api_get_snap_info w snap_name) as [details|e]; simpl.
    + destruct (lp_get_snap_build w _ build_id) as [[lp_build|]|e] eqn:Hlp;
        simpl; [| |done].
      * destruct (map_build_and_upload_states w _ _); simpl; [|done].
        destruct (build_id_of (self_link lp_build)) as [ident|] eqn:Hid;
          simpl; [|done].
        apply build_id_of_ok in Hid.
        destruct (value_truthy (build_log_url lp_build)); simpl;
          [destruct (lp_get_snap_build_log w _ _); simpl; [|done]|];
          intros [= <- <-]; simpl; intros [= <-]; eauto.
      * intros [= <- <-]. done.
    + run; done.
Qed.

Lemma build_id_is_trailing_segment_witness :
  (exists b t,
     get_builds (sample_world true (Ok None) five_builds VNone (Ok tt))
                sample_snap (Slice 0 BUILDS_PER_PAGE) = (Ok b, t) /\
     row_id <$> snap_builds b = ["40"; "39"; "38"; "37"; "36"] /\
     Forall2 (fun build row => trailing_segment (self_link build) (row_id row))
             (getslice five_builds (Slice 0 BUILDS_PER_PAGE)) (snap_builds b)) /\
  (exists context t snap_build,
     get_snap_build (sample_world true (Ok None) five_builds VNone (Ok tt))
                    "toto" "40" = (Ok (RenderBuild context), t) /\
     ctx_snap_build context = Some snap_build /\
     id snap_build = "40" /\
     exists lp_build,
       head five_builds = Some lp_build /\
       trailing_segment (self_link lp_build) (id snap_build)).
Proof.
  destruct (build_id_is_trailing_segment
              (sample_world true (Ok None) five_builds VNone (Ok tt)))
    as [Hrows Hone].
  split.
  - eexists _, _. split; [by vm_compute|]. split; [by vm_compute|].
    destruct (Hrows sample_snap (Slice 0 BUILDS_PER_PAGE) _ _ eq_refl)
      as (builds & [= <-] & Hall).
    exact Hall.
  - eexists _, _, _. split; [by vm_compute|]. split; [reflexivity|].
    split; [reflexivity|].
    destruct (Hone "toto" "40" _ _ _ eq_refl eq_refl)
      as (lp_build & [= <-] & Hseg).
    eexists. split; [reflexivity|exact Hseg].
Defined.

(** C10: [total_builds] is the length of the whole list Launchpad returned,
    whichever slice was selected. *)
Theorem get_builds_total_builds w lp_snap selection b t :
  get_builds w lp_snap selection = (Ok b, t) ->
  (exists builds,
     lp_get_snap_builds w (store_name lp_snap) = Ok builds /\
     total_builds b = length builds) /\
  (forall selection' b' t',
     get_builds w lp_snap selection' = (Ok b', t') ->
     total_builds b' = total_builds b).
Proof.
  intros H. destruct (get_builds_inv _ _ _ _ _ H) as (builds & Hb & Hlen & _).
  split; [by exists builds|].
  intros selection' b' t' H'.
  destruct (get_builds_inv _ _ _ _ _ H') as (builds' & Hb' & Hlen' & _).
  congruence.
Qed.

Lemma get_builds_total_builds_witness :
  exists b t,
    get_builds (sample_world true (Ok None) five_builds VNone (Ok tt))
               sample_snap (Slice 3 4) = (Ok b, t) /\
    length (snap_builds b) = 1%nat /\
    exists builds,
      Ok five_builds = Ok builds /\ total_builds b = length builds.
Proof.
  eexists _, _. split; [by vm_compute|]. split; [by vm_compute|].
  apply (get_builds_total_builds
           (sample_world true (Ok None) five_builds VNone (Ok tt))
           sample_snap (Slice 3 4) _ _ eq_refl).
Defined.

(** ** Pagination of the JSON endpoint *)

(** What the endpoint does with [start] and [size]: the rows are those of
    [builds[start:size]], so [size] is the offset at which the page ends. *)
Lemma get_snap_builds_json_rows w req snap_name total rows t :
  get_snap_builds_json w req snap_name
    = (Ok (JsonifyBuilds (Some total) rows), t) ->
  exists details lp_snap builds,
    api_get_snap_info w snap_name = Ok details /\
    lp_get_snap_by_store_name w (details_snap_name details) = Ok (Some lp_snap) /\
    lp_get_snap_builds w (store_name lp_snap) = Ok builds /\
    Forall2 (row_of w)
      (getslice builds (Slice (default 0 (arg_start req))
                              (default 15 (arg_size req)))) rows.
Proof.
  unfold get_snap_builds_json, get_details_or_respond. unfold_monad.
  destruct (api_get_snap_info w snap_name) as [details|e]; simpl.
  - destruct (lp_get_snap_by_store_name w _) as [[lp_snap|]|e] eqn:Hlp; simpl;
      [|done|done].
    destruct (get_builds w lp_snap _) as [[b|e] t'] eqn:Hb; simpl; [|done].
    intros [= <- <- <-].
    destruct (get_builds_inv _ _ _ _ _ Hb) as (builds & Hbuilds & _ & Hrows).
    by exists details, lp_snap, builds.
  - run; done.
Qed.

(** With a start of zero the rows are the first page of the spec. *)
Lemma get_snap_builds_json_first_page w req snap_name total rows t :
  arg_start req = None \/ arg_start req = Some 0 ->
  0 <= default 15 (arg_size req) ->
  get_snap_builds_json w req snap_name
    = (Ok (JsonifyBuilds (Some total) rows), t) ->
  exists details lp_snap builds,
    api_get_snap_info w snap_name = Ok details /\
    lp_get_snap_by_store_name w (details_snap_name details) = Ok (Some lp_snap) /\
    lp_get_snap_builds w (store_name lp_snap) = Ok builds /\
    Forall2 (row_of w) (page_of_spec 0 (default 15 (arg_size req)) builds) rows.
Proof.
  intros Hstart Hsize H.
  destruct (get_snap_builds_json_rows _ _ _ _ _ _ H)
    as (details & lp_snap & builds & Hd & Hlp & Hb & Hrows).
  exists details, lp_snap, builds. repeat split; try done.
  rewrite <- getslice_first_page by done.
  by destruct Hstart as [Hs|Hs]; rewrite Hs in Hrows.
Qed.

(** C6: for [?start=2&size=2] over five builds the page of the claim holds
    the builds at offsets 2 and 3, while the endpoint returns no build at
    all: it slices [builds[2:2]]. *)
Theorem get_snap_builds_json_start_2_size_2 :
  self_link <$> page_of_spec 2 2 five_builds =
    ["https://api.launchpad.net/devel/~bsi/+snap/0a1b/+build/38";
     "https://api.launchpad.net/devel/~bsi/+snap/0a1b/+build/37"] /\
  outcome (get_snap_builds_json
             (sample_world true (Ok None) five_builds VNone (Ok tt))
             (sample_request "master" (Some 2) (Some 2)) "toto")
    = Ok (JsonifyBuilds (Some 5%nat) []).
Proof. split; by vm_compute. Qed.

(** ** The status reconciler *)

Lemma find_status_unknown table farm upload :
  farm ∉ known_farm_states table \/ upload ∉ known_upload_states table ->
  find_status (farm, upload) table = None.
Proof.
  unfold known_farm_states, known_upload_states.
  induction table as [|[[f u] s] table IH]; simpl; [done|].
  rewrite !not_elem_of_cons. intros H. rewrite bool_decide_false.
  - apply IH. tauto.
  - intros [= -> ->]. tauto.
Qed.

(** C5: a farm state or an upload state outside the vocabulary of the
    table yields the default status, as a value and not as an exception,
    and the anomaly is logged. *)
Theorem reconcile_unknown_default table default_status farm upload :
  farm ∉ known_farm_states table \/ upload ∉ known_upload_states table ->
  (reconcile table default_status farm upload).1 = Ok default_status /\
  (reconcile table default_status farm upload).2 <> [].
Proof.
  intros H. unfold reconcile. by rewrite (find_status_unknown _ _ _ H).
Qed.

Lemma reconcile_unknown_default_witness :
  (reconcile sample_table "unknown" "Gathering output" None).1 = Ok "unknown" /\
  (reconcile sample_table "unknown" "Successfully built" (Some "Held")).1
    = Ok "unknown".
Proof.
  split.
  - apply (reconcile_unknown_default sample_table "unknown"
             "Gathering output" None).
    left. unfold known_farm_states. simpl. rewrite !not_elem_of_cons.
    repeat split; try discriminate. apply not_elem_of_nil.
  - apply (reconcile_unknown_default sample_table "unknown"
             "Successfully built" (Some "Held")).
    right. unfold known_upload_states. simpl. rewrite !not_elem_of_cons.
    repeat split; try discriminate. apply not_elem_of_nil.
Defined.

(** A recognised pair yields the status the table gives it. *)
Lemma reconcile_known table default_status farm upload s :
  find_status (farm, upload) table = Some s ->
  reconcile table default_status farm upload = (Ok s, []).
Proof. intros H. unfold reconcile. by rewrite H. Qed.

(** * Further properties *)

(** ** get_builds *)

Lemma count_app p t1 t2 : count p (t1 ++ t2) = (count p t1 + count p t2)%nat.
Proof. induction t1 as [|e t1 IH]; simpl; [done|]. rewrite IH. lia. Qed.

Lemma builders_truthy_lookup (m : gmap string BuilderStatus) k info :
  m !! k = Some info -> builders_truthy (Some m) = true.
Proof.
  intros H. unfold builders_truthy. rewrite bool_decide_false; [done|].
  intros ->. by rewrite lookup_empty in H.
Qed.

Lemma get_builds_loop_fetches_once w builds : forall status,
  (count is_builders_status (trace (get_builds_loop w builds status)) <= 1)%nat /\
  (builders_truthy status = true ->
   count is_builders_status (trace (get_builds_loop w builds status)) = 0%nat).
Proof.
  induction builds as [|build rest IH]; intros bs; simpl; [by split; [lia|]|].
  unfold lift, call, raise, mbind, M_bind, mret, M_ret, trace.
  destruct (map_build_and_upload_states w _ _) as [st|e]; simpl; [|by split; [lia|]].
  destruct (build_id_of _) as [ident|e]; simpl; [|by split; [lia|]].
  destruct (String.eqb (buildstate build) "Needs building").
  - destruct (builders_truthy bs) eqn:Htruthy.
    + destruct bs as [m|]; [|done]. simpl.
      destruct (m !! arch_tag build) as [info|]; simpl; [|by split; [lia|]].
      destruct (IH (Some m)) as [_ Hzero]. specialize (Hzero Htruthy).
      unfold trace in Hzero.
      destruct (get_builds_loop w rest (Some m)) as [[rows|e] t]; simpl in *;
        rewrite ?app_nil_r; split; try lia; done.
    + destruct (lp_get_builders_status w) as [m|e]; simpl;
        [|by split; [lia|]].
      destruct (m !! arch_tag build) as [info|] eqn:Hinfo; simpl;
        [|by split; [lia|]].
      destruct (IH (Some m)) as [_ Hzero].
      specialize (Hzero (builders_truthy_lookup _ _ _ Hinfo)).
      unfold trace in Hzero.
      destruct (get_builds_loop w rest (Some m)) as [[rows|e] t]; simpl in *;
        rewrite ?app_nil_r; split; try lia; done.
  - simpl. destruct (IH bs) as [Hone Hzero]. unfold trace in *.
    destruct (get_builds_loop w rest bs) as [[rows|e] t]; simpl in *;
      rewrite ?app_nil_r; split; try lia; done.
Qed.

Lemma get_builds_loop_quiet w builds : forall status,
  Forall (fun build => ~ needs_building build) builds ->
  count is_builders_status (trace (get_builds_loop w builds status)) = 0%nat.
Proof.
  induction builds as [|build rest IH]; intros bs Hall; simpl; [done|].
  inversion Hall as [|? ? Hhead Hrest]; subst.
  unfold lift, call, raise, mbind, M_bind, mret, M_ret, trace.
  destruct (map_build_and_upload_states w _ _) as [st|e]; simpl; [|done].
  destruct (build_id_of _) as [ident|e]; simpl; [|done].
  destruct (String.eqb (buildstate build) "Needs building") eqn:Hstate.
  { apply String.eqb_eq in Hstate. by destruct Hhead. }
  simpl. specialize (IH bs Hrest). unfold trace in IH.
  by destruct (get_builds_loop w rest bs) as [[rows|e] t]; simpl in *;
    rewrite ?app_nil_r.
Qed.

(** X1: one call of [get_builds] asks Launchpad for the builders' status at
    most once, however many of the selected builds are queued, and not at
    all when none of them needs building. *)
Theorem get_builds_fetches_builders_once w lp_snap selection :
  (count is_builders_status (trace (get_builds w lp_snap selection)) <= 1)%nat /\
  (forall builds,
     lp_get_snap_builds w (store_name lp_snap) = Ok builds ->
     Forall (fun build => ~ needs_building build) (getslice builds selection) ->
     count is_builders_status (trace (get_builds w lp_snap selection)) = 0%nat).
Proof.
  unfold get_builds, call, mbind, M_bind, mret, M_ret, trace.
  destruct (lp_get_snap_builds w _) as [builds|e]; simpl; [|split; [lia|done]].
  split.
  - destruct (get_builds_loop_fetches_once w (getslice builds selection) None)
      as [Hone _]. unfold trace in Hone.
    by destruct (get_builds_loop w _ None) as [[rows|e] t]; simpl in *;
      rewrite ?app_nil_r.
  - intros ? [= <-] Hall.
    pose proof (get_builds_loop_quiet w _ None Hall) as Hzero.
    unfold trace in Hzero.
    by destruct (get_builds_loop w _ None) as [[rows|e] t]; simpl in *;
      rewrite ?app_nil_r.
Qed.

(** X2: [get_builds] returns one row per build of the selected slice, so
    never more rows than [total_builds]. *)
Theorem get_builds_rows_bounded w lp_snap selection b t :
  get_builds w lp_snap selection = (Ok b, t) ->
  (length (snap_builds b) <= total_builds b)%nat /\
  exists builds,
    lp_get_snap_builds w (store_name lp_snap) = Ok builds /\
    length (snap_builds b) = length (getslice builds selection).
Proof.
  intros H. destruct (get_builds_inv _ _ _ _ _ H) as (builds & Hb & Hlen & Hrows).
  apply Forall2_length in Hrows. split.
  - rewrite Hlen, <- Hrows. apply getslice_length.
  - by exists builds.
Qed.

Lemma get_builds_loop_unknown_arch w m builds :
  lp_get_builders_status w = Ok m ->
  Forall (fun build =>
            exists s, map_build_and_upload_states w (buildstate build)
                        (store_upload_status build) = Ok s) builds ->
  Exists (fun build => needs_building build /\ m !! arch_tag build = None)
         builds ->
  forall status, fetched w status ->
  exists arch,
    outcome (get_builds_loop w builds status) = Raise (KeyError arch) /\
    m !! arch = None.
Proof.
  intros Hm Hall Hex. induction builds as [|build rest IH]; intros bs Hbs.
  { inversion Hex. }
  inversion Hall as [|? ? [s Hs] Hrest]; subst.
  simpl. unfold lift, call, raise, mbind, M_bind, mret, M_ret, outcome.
  rewrite Hs.
  destruct (build_id_of_trailing (self_link build)) as (seg & -> & _).
  destruct (String.eqb (buildstate build) "Needs building") eqn:Hstate.
  - assert (Hnext : m !! arch_tag build <> None ->
              exists arch,
                (get_builds_loop w rest (Some m)).1 = Raise (KeyError arch) /\
                m !! arch = None).
    { intros Hsome. apply (IH Hrest); [|exact Hm].
      inversion Hex as [? ? [_ Hnone]|]; subst; [congruence|done]. }
    destruct (builders_truthy bs) eqn:Htruthy.
    + destruct bs as [m'|]; [|done]. simpl in Hbs.
      assert (m' = m) as -> by congruence. simpl.
      destruct (m !! arch_tag build) as [info|] eqn:Hinfo; simpl; [|eauto].
      destruct Hnext as (arch & Hraise & Hnone); [done|].
      destruct (get_builds_loop w rest (Some m)) as [r t]. simpl in *.
      subst r. eauto.
    + rewrite Hm. simpl.
      destruct (m !! arch_tag build) as [info|] eqn:Hinfo; simpl; [|eauto].
      destruct Hnext as (arch & Hraise & Hnone); [done|].
      destruct (get_builds_loop w rest (Some m)) as [r t]. simpl in *.
      subst r. eauto.
  - apply String.eqb_neq in Hstate. simpl.
    assert (Hex' : Exists (fun build => needs_building build /\
                             m !! arch_tag build = None) rest).
    { inversion Hex as [? ? [Hneeds _]|]; subst; done. }
    destruct (IH Hrest Hex' bs Hbs) as (arch & Hraise & Hnone).
    unfold outcome in Hraise.
    destruct (get_builds_loop w rest bs) as [r t]. simpl in *. subst r. eauto.
Qed.

(** X3: when a selected build needs building and the builders' status has
    no entry for its architecture, [get_builds] raises KeyError for a
    missing architecture instead of returning rows. *)
Theorem get_builds_unknown_arch w lp_snap selection builds m :
  lp_get_snap_builds w (store_name lp_snap) = Ok builds ->
  lp_get_builders_status w = Ok m ->
  Forall (fun build =>
            exists s, map_build_and_upload_states w (buildstate build)
                        (store_upload_status build) = Ok s)
         (getslice builds selection) ->
  Exists (fun build => needs_building build /\ m !! arch_tag build = None)
         (getslice builds selection) ->
  exists arch,
    outcome (get_builds w lp_snap selection) = Raise (KeyError arch) /\
    m !! arch = None.
Proof.
  intros Hb Hm Hall Hex.
  destruct (get_builds_loop_unknown_arch _ _ _ Hm Hall Hex None I)
    as (arch & Hraise & Hnone).
  exists arch. split; [|done].
  unfold get_builds, call, mbind, M_bind, mret, M_ret, outcome in *.
  rewrite Hb.
  destruct (get_builds_loop w _ None) as [r t]. simpl in *. by subst r.
Qed.

Lemma get_builds_loop_copies w builds : forall status rows t,
  get_builds_loop w builds status = (Ok rows, t) ->
  Forall2 copied_fields builds rows.
Proof.
  induction builds as [|build rest IH]; intros bs rows t; simpl.
  - intros [= <- <-]. constructor.
  - unfold lift, mbind, M_bind, mret, M_ret, call, raise.
    destruct (map_build_and_upload_states w _ _) as [st|e]; [|done].
    destruct (build_id_of _) as [ident|e]; [|done].
    destruct (String.eqb (buildstate build) "Needs building").
    + destruct (builders_truthy bs).
      * simpl.
        destruct (default ∅ bs !! arch_tag build) as [info|]; [|done].
        destruct (get_builds_loop w rest _) as [[rows'|e] t'] eqn:Hrest;
          [|done].
        intros [= <- <-]. constructor; [by repeat split|by eapply IH].
      * destruct (lp_get_builders_status w) as [m|e]; [|done]. simpl.
        destruct (m !! arch_tag build) as [info|]; [|done].
        destruct (get_builds_loop w rest _) as [[rows'|e] t'] eqn:Hrest;
          [|done].
        intros [= <- <-]. constructor; [by repeat split|by eapply IH].
    + simpl.
      destruct (get_builds_loop w rest bs) as [[rows'|e] t'] eqn:Hrest; [|done].
      intros [= <- <-]. constructor; [by repeat split|by eapply IH].
Qed.

(** X4: every row carries the build's arch_tag, datebuilt, duration, log
    URL, revision id and title unchanged, and its status is what
    [map_build_and_upload_states] makes of the build state and the upload
    status. *)
Theorem get_builds_copies_fields w lp_snap selection b t :
  get_builds w lp_snap selection = (Ok b, t) ->
  exists builds,
    lp_get_snap_builds w (store_name lp_snap) = Ok builds /\
    Forall2 (fun build row =>
               copied_fields build row /\
               map_build_and_upload_states w (buildstate build)
                 (store_upload_status build) = Ok (row_status row))
            (getslice builds selection) (snap_builds b).
Proof.
  intros H. destruct (get_builds_inv _ _ _ _ _ H) as (builds & Hb & _ & Hrows).
  exists builds. split; [done|].
  revert H. unfold get_builds, call, mbind, M_bind, mret, M_ret. rewrite Hb.
  destruct (get_builds_loop w _ None) as [[rows|e] t'] eqn:Hloop; [|done].
  intros [= <- <-]. simpl in *.
  apply get_builds_loop_copies in Hloop.
  revert Hrows Hloop. generalize (getslice builds selection).
  induction rows as [|row rows IH]; intros l Hrows Hloop;
    inversion Hrows as [|? ? ? ? (_ & Hst & _) Hrows']; subst;
    inversion Hloop; subst; constructor; auto.
Qed.

Lemma get_builds_fetches_builders_once_witness :
  (count is_builders_status
     (trace (get_builds
               (sample_world true (Ok None) (queued_build :: five_builds)
                             VNone (Ok tt))
               sample_snap (Slice 0 BUILDS_PER_PAGE))) <= 1)%nat /\
  count is_builders_status
    (trace (get_builds
              (sample_world true (Ok None) five_builds VNone (Ok tt))
              sample_snap (Slice 1 4))) = 0%nat.
Proof.
  split.
  - apply (get_builds_fetches_builders_once
             (sample_world true (Ok None) (queued_build :: five_builds)
                           VNone (Ok tt))
             sample_snap (Slice 0 BUILDS_PER_PAGE)).
  - apply (proj2 (get_builds_fetches_builders_once
                    (sample_world true (Ok None) five_builds VNone (Ok tt))
                    sample_snap (Slice 1 4)) five_builds eq_refl).
    repeat constructor; discriminate.
Defined.

Lemma get_builds_rows_bounded_witness :
  exists b t,
    get_builds (sample_world true (Ok None) five_builds VNone (Ok tt))
               sample_snap (Slice 1 4) = (Ok b, t) /\
    (length (snap_builds b) <= total_builds b)%nat /\
    exists builds,
      Ok five_builds = Ok builds /\
      length (snap_builds b) = length (getslice builds (Slice 1 4)).
Proof.
  eexists _, _. split; [by vm_compute|].
  apply (get_builds_rows_bounded
           (sample_world true (Ok None) five_builds VNone (Ok tt))
           sample_snap (Slice 1 4) _ _ eq_refl).
Defined.

Lemma get_builds_unknown_arch_witness :
  exists arch,
    outcome (get_builds
               (sample_world true (Ok None) [armhf_build] VNone (Ok tt))
               sample_snap (Slice 0 BUILDS_PER_PAGE))
      = Raise (KeyError arch) /\
    ({[ "amd64" := {| estimated_duration := VNone |} ]}
       : gmap string BuilderStatus) !! arch = None.
Proof.
  apply (get_builds_unknown_arch
           (sample_world true (Ok None) [armhf_build] VNone (Ok tt))
           sample_snap (Slice 0 BUILDS_PER_PAGE) [armhf_build]
           {[ "amd64" := {| estimated_duration := VNone |} ]}
           eq_refl eq_refl).
  - repeat constructor. by eexists.
  - apply Exists_cons_hd. split; [reflexivity|by vm_compute].
Defined.

Lemma get_builds_copies_fields_witness :
  exists b t,
    get_builds (sample_world true (Ok None) five_builds VNone (Ok tt))
               sample_snap (Slice 0 2) = (Ok b, t) /\
    row_status <$> snap_builds b = ["building_soon"; "unknown"] /\
    exists builds,
      Ok five_builds = Ok builds /\
      Forall2 (fun build row =>
                 copied_fields build row /\
                 map_build_and_upload_states
                   (sample_world true (Ok None) five_builds VNone (Ok tt))
                   (buildstate build) (store_upload_status build)
                   = Ok (row_status row))
              (getslice builds (Slice 0 2)) (snap_builds b).
Proof.
  eexists _, _. split; [by vm_compute|]. split; [by vm_compute|].
  apply (get_builds_copies_fields
           (sample_world true (Ok None) five_builds VNone (Ok tt))
           sample_snap (Slice 0 2) _ _ eq_refl).
Defined.

(** ** validate_repo *)

(** X5: whenever [validate_repo] returns, it reports success exactly when
    GitHub finds a snapcraft.yaml in the repository and the name in it is
    the snap name that was passed in. *)
Theorem validate_repo_success_iff w token snap_name owner repo r :
  outcome (validate_repo w token snap_name owner repo) = Ok r ->
  (dict_get "success" r = Some (VBool true) <->
   exists location,
     gh_get_snapcraft_yaml_location w token owner repo = Ok location /\
     truthy location = true /\
     gh_get_snapcraft_yaml_name w token owner repo = Ok snap_name).
Proof.
  unfold validate_repo, fail_with. unfold_monad.
  destruct (gh_get_snapcraft_yaml_location w _ _ _) as [loc|e]; [|done].
  simpl. destruct (truthy loc) eqn:Hloc; simpl.
  - destruct (gh_get_snapcraft_yaml_name w _ _ _) as [name|[]]; simpl;
      try done.
    + destruct (bool_decide (name = snap_name)) eqn:Hname; simpl;
        intros [= <-]; simpl.
      * apply bool_decide_eq_true in Hname as ->. split; [|done].
        intros _. by exists loc.
      * apply bool_decide_eq_false in Hname. split; [done|].
        intros (? & [= <-] & _ & [= ?]). done.
    + intros [= <-]. simpl. split; [done|]. by intros (? & _ & _ & ?).
  - intros [= <-]. simpl. split; [done|].
    intros (? & [= <-] & ? & _). congruence.
Qed.

(** X6: [validate_repo] only reads from GitHub: it asks for the location of
    the snapcraft.yaml, and for the name in it only when a location was
    found; it makes no other call, whatever the answers. *)
Theorem validate_repo_reads_only w token snap_name owner repo :
  (trace (validate_repo w token snap_name owner repo)
     = [GhGetSnapcraftYamlLocation owner repo] \/
   trace (validate_repo w token snap_name owner repo)
     = [GhGetSnapcraftYamlLocation owner repo;
        GhGetSnapcraftYamlName owner repo]) /\
  (In (GhGetSnapcraftYamlName owner repo)
      (trace (validate_repo w token snap_name owner repo)) <->
   exists location,
     gh_get_snapcraft_yaml_location w token owner repo = Ok location /\
     truthy location = true).
Proof.
  unfold validate_repo, fail_with. unfold_monad.
  destruct (gh_get_snapcraft_yaml_location w _ _ _) as [loc|e]; simpl.
  - destruct (truthy loc) eqn:Hloc; simpl.
    + destruct (gh_get_snapcraft_yaml_name w _ _ _) as [name|[]]; simpl;
        try destruct (bool_decide (name = snap_name)); simpl;
        (split; [by right | split; [by exists loc | tauto]]).
    + split; [by left|]. split; [intros [|[]]; done|].
      intros (? & [= <-] & ?). congruence.
  - split; [by left|]. split; [intros [|[]]; done|].
    by intros (? & ? & _).
Qed.

(** ** The webhook, further *)

Lemma validate_repo_trace_cases w token snap_name owner repo :
  trace (validate_repo w token snap_name owner repo)
    = [GhGetSnapcraftYamlLocation owner repo] \/
  trace (validate_repo w token snap_name owner repo)
    = [GhGetSnapcraftYamlLocation owner repo;
       GhGetSnapcraftYamlName owner repo].
Proof.
  unfold validate_repo, fail_with. unfold_monad.
  destruct (gh_get_snapcraft_yaml_location w _ _ _) as [loc|e]; simpl;
    [|by left].
  destruct (truthy loc); simpl; [|by left].
  destruct (gh_get_snapcraft_yaml_name w _ _ _) as [name|[]]; simpl;
    try destruct (bool_decide (name = snap_name)); simpl; by right.
Qed.

(** X7: the webhook calls [launchpad.build_snap] only when the [ref]
    without its first eleven characters is the default branch (so, among
    the pushes of a branch [refs/heads/<branch>], only for the default
    one), the snap is built from the pushed repository, the signature is
    valid and the repository passed [validate_repo]. *)
Theorem post_github_webhook_build_guarded w req snap_name :
  existsb is_build_snap (trace (post_github_webhook w req snap_name)) = true ->
  (exists lp_snap r,
     webhook_guards w req snap_name lp_snap /\
     outcome (validation_of w req lp_snap) = Ok r /\
     dict_get "success" r = Some (VBool true)) /\
  (forall branch,
     ref (json req) = "refs/heads/" +:+ branch ->
     branch = repository_default_branch (json req)).
Proof.
  intros Hbuilt. split.
  2: { intros branch Href.
       destruct (String.eqb (repository_default_branch (json req))
                            (str_from 11 (ref (json req)))) eqn:Hbranch.
       - apply String.eqb_eq in Hbranch. rewrite Href in Hbranch.
         by change (str_from 11 ("refs/heads/" +:+ branch)) with branch
           in Hbranch.
       - apply String.eqb_neq in Hbranch.
         rewrite (post_github_webhook_guard_fails _ _ _ Hbranch) in Hbuilt.
         done. }
  revert Hbuilt.
  unfold post_github_webhook, webhook_guards, validation_of.
  destruct (String.eqb _ _) eqn:Hbranch; simpl; [|done].
  apply String.eqb_eq in Hbranch. unfold_monad.
  destruct (find_webhook_snap w snap_name _) as [[[lp_snap|]|e] t0] eqn:Hfind;
    simpl; rewrite ?app_nil_r.
  3: { intros H. exfalso. revert H Hfind. unfold find_webhook_snap, call.
       destruct (truthy snap_name); intros H [= _ <-]; done. }
  2: { intros H. exfalso. revert H Hfind. unfold find_webhook_snap, call.
       destruct (truthy snap_name); intros H [= _ <-]; done. }
  assert (Ht0 : existsb is_build_snap t0 = false).
  { revert Hfind. unfold find_webhook_snap, call.
    destruct (truthy snap_name); intros [= _ <-]; done. }
  destruct (String.eqb (git_repository_url lp_snap) _) eqn:Hurl; simpl;
    rewrite ?app_nil_r; [|congruence].
  apply String.eqb_eq in Hurl.
  destruct (gh_validate_webhook_signature w _ _) as [[|]|e] eqn:Hsig; simpl;
    rewrite ?existsb_app, ?Ht0; simpl; try done.
  pose proof (validate_repo_well_formed w (GITHUB_SNAPCRAFT_USER_TOKEN w)
                (store_name lp_snap) (repository_owner_login (json req))
                (repository_name (json req))) as Hwf.
  pose proof (validate_repo_trace_cases w (GITHUB_SNAPCRAFT_USER_TOKEN w)
                (store_name lp_snap) (repository_owner_login (json req))
                (repository_name (json req))) as Htr.
  unfold outcome, trace in Hwf, Htr.
  destruct (validate_repo w _ _ _ _) as [[r|e] tv] eqn:Hval; simpl in *.
  2: { rewrite !existsb_app, Ht0. simpl.
       destruct Htr as [-> | ->]; done. }
  destruct (Hwf r eq_refl) as (b & Hsucc & Herr & Htype).
  rewrite Hsucc. simpl. destruct b; simpl.
  - intros _. exists lp_snap, r. rewrite Hval. by repeat split.
  - unfold dict_has in Herr. simpl in Herr.
    destruct (dict_get "error" r) as [err|] eqn:Herror; [|done].
    simpl. intros H. exfalso. revert H.
    destruct (getitem "message" err); simpl;
      rewrite !existsb_app, Ht0; simpl;
      destruct Htr as [-> | ->]; done.
Qed.

Lemma validate_repo_failure_message w token snap_name owner repo r :
  outcome (validate_repo w token snap_name owner repo) = Ok r ->
  dict_get "success" r = Some (VBool false) ->
  exists msg, error_message r = Ok (VStr msg).
Proof.
  unfold validate_repo, fail_with, error_message. unfold_monad.
  destruct (gh_get_snapcraft_yaml_location w _ _ _) as [loc|e]; [|done].
  simpl. destruct (truthy loc); simpl.
  - destruct (gh_get_snapcraft_yaml_name w _ _ _) as [name|[]]; simpl;
      try done.
    + destruct (bool_decide (name = snap_name)); simpl; intros [= <-];
        [done|]. simpl. eauto.
    + intros [= <-]. simpl. eauto.
  - intros [= <-]. simpl. eauto.
Qed.

Lemma find_webhook_snap_quiet w snap_name url :
  existsb is_build_snap (trace (find_webhook_snap w snap_name url)) = false.
Proof. unfold find_webhook_snap, call, trace. by destruct (truthy snap_name). Qed.

(** X8: for a push that passed every check the webhook answers 204 when
    Launchpad accepts the build, and lets any failure of the Launchpad
    calls propagate; unlike [post_build] it catches none of them. *)
Theorem post_github_webhook_accepts w req snap_name lp_snap r :
  webhook_guards w req snap_name lp_snap ->
  outcome (validation_of w req lp_snap) = Ok r ->
  dict_get "success" r = Some (VBool true) ->
  (outcome (cancel_and_build w (store_name lp_snap)) = Ok tt ->
   outcome (post_github_webhook w req snap_name) = Ok (Body EmptyString 204)) /\
  (forall e,
     outcome (cancel_and_build w (store_name lp_snap)) = Raise e ->
     outcome (post_github_webhook w req snap_name) = Raise e).
Proof.
  intros (Hbranch & Hfind & Hurl & Hsig) Hval Hsucc.
  apply String.eqb_eq in Hbranch. apply String.eqb_eq in Hurl.
  unfold post_github_webhook, validation_of in *. rewrite Hbranch. unfold_monad.
  simpl. destruct (find_webhook_snap w snap_name _) as [r0 t0].
  simpl in Hfind. subst r0. simpl. rewrite Hurl. simpl. rewrite Hsig. simpl.
  destruct (validate_repo w _ _ _ _) as [rv tv]. simpl in Hval. subst rv.
  rewrite Hsucc. simpl.
  destruct (cancel_and_build w (store_name lp_snap)) as [[[]|e] tc]; simpl;
    split; try done; by intros ? [= ->].
Qed.

(** X9: when the push passed the checks but its repository fails
    validation, the webhook answers 400 with the message of the validation
    error. *)
Theorem post_github_webhook_rejects_invalid_repo w req snap_name lp_snap r :
  webhook_guards w req snap_name lp_snap ->
  outcome (validation_of w req lp_snap) = Ok r ->
  dict_get "success" r = Some (VBool false) ->
  exists msg,
    error_message r = Ok (VStr msg) /\
    outcome (post_github_webhook w req snap_name) = Ok (Body msg 400).
Proof.
  intros (Hbranch & Hfind & Hurl & Hsig) Hval Hsucc.
  destruct (validate_repo_failure_message _ _ _ _ _ _ Hval Hsucc)
    as [msg Hmsg].
  exists msg. split; [done|].
  apply String.eqb_eq in Hbranch. apply String.eqb_eq in Hurl.
  unfold post_github_webhook, validation_of, error_message in *.
  rewrite Hbranch. unfold_monad.
  simpl. destruct (find_webhook_snap w snap_name _) as [r0 t0].
  simpl in Hfind. subst r0. simpl. rewrite Hurl. simpl. rewrite Hsig. simpl.
  destruct (validate_repo w _ _ _ _) as [rv tv]. simpl in Hval. subst rv.
  rewrite Hsucc. simpl. simpl in Hmsg.
  destruct (dict_get "error" r) as [err|]; [|done]. simpl.
  by rewrite Hmsg.
Qed.

(** X10: a push from another repository than the one the snap is built
    from is answered 403 right after the Launchpad lookup: the signature is
    not checked and GitHub is not asked. *)
Theorem post_github_webhook_other_repository w req snap_name lp_snap :
  repository_default_branch (json req) = str_from 11 (ref (json req)) ->
  outcome (find_webhook_snap w snap_name (repository_html_url (json req)))
    = Ok (Some lp_snap) ->
  git_repository_url lp_snap <> repository_html_url (json req) ->
  outcome (post_github_webhook w req snap_name)
    = Ok (Body "The repository does not match the one used by this Snap" 403) /\
  trace (post_github_webhook w req snap_name)
    = trace (find_webhook_snap w snap_name (repository_html_url (json req))).
Proof.
  intros Hbranch Hfind Hurl.
  apply String.eqb_eq in Hbranch. apply String.eqb_neq in Hurl.
  unfold post_github_webhook. rewrite Hbranch. unfold_monad. simpl.
  destruct (find_webhook_snap w snap_name _) as [r0 t0].
  simpl in Hfind. subst r0. simpl. rewrite Hurl. simpl.
  by rewrite !app_nil_r.
Qed.

(** X11: when Launchpad answers the lookup with no snap, the webhook fails
    with a TypeError on [lp_snap["git_repository_url"]], before anything
    else is called. *)
Theorem post_github_webhook_unknown_snap w req snap_name :
  repository_default_branch (json req) = str_from 11 (ref (json req)) ->
  outcome (find_webhook_snap w snap_name (repository_html_url (json req)))
    = Ok None ->
  outcome (post_github_webhook w req snap_name)
    = Raise (TypeError "'NoneType' object is not subscriptable") /\
  trace (post_github_webhook w req snap_name)
    = trace (find_webhook_snap w snap_name (repository_html_url (json req))).
Proof.
  intros Hbranch Hfind. apply String.eqb_eq in Hbranch.
  unfold post_github_webhook. rewrite Hbranch. unfold_monad. simpl.
  destruct (find_webhook_snap w snap_name _) as [r0 t0].
  simpl in Hfind. subst r0. simpl. by rewrite !app_nil_r.
Qed.

(** ** post_build, further *)

(** X12: for a user who is not a contributor of the snap, [post_build]
    answers with the FORBIDDEN JSON body and calls Launchpad not at all. *)
Theorem post_build_forbidden w snap_name account_snaps :
  api_get_account_snaps w = Ok account_snaps ->
  snap_name ∉ account_snaps ->
  exists message,
    outcome (post_build w snap_name)
      = Ok (Jsonify [("success", VBool false);
                     ("error", VDict [("type", VStr "FORBIDDEN");
                                      ("message", VStr message)])]) /\
    trace (post_build w snap_name) = [ApiGetAccountSnaps].
Proof.
  intros Hacc Hin. unfold post_build. unfold_monad. rewrite Hacc. simpl.
  rewrite bool_decide_false by done. simpl. eauto.
Qed.

Lemma cancel_and_build_cases w name :
  (existsb is_cancel (trace (cancel_and_build w name)) = true ->
   lp_is_snap_building w name = Ok true) /\
  (existsb is_build_snap (trace (cancel_and_build w name)) = true <->
   In (LpBuildSnap name) (trace (cancel_and_build w name))) /\
  (outcome (cancel_and_build w name) = Ok tt ->
   lp_build_snap w name = Ok tt /\
   In (LpBuildSnap name) (trace (cancel_and_build w name))).
Proof.
  unfold cancel_and_build. unfold_monad.
  destruct (lp_is_snap_building w name) as [[|]|e]; simpl;
    try destruct (lp_cancel_snap_builds w name) as [[]|e]; simpl;
    try destruct (lp_build_snap w name) as [[]|e]; simpl;
    repeat split; try done; try tauto;
    try (intros [|[|[|[]]]]; done); try (intros [|[|[]]]; done);
    try (intros [|[]]; done).
Qed.

(** X13: [post_build] cancels running builds only when Launchpad said the
    snap is building, and answers [{"success": true}] only after
    [build_snap] was called and returned. *)
Theorem post_build_cancels_and_builds w snap_name :
  (existsb is_cancel (trace (post_build w snap_name)) = true ->
   lp_is_snap_building w (Some snap_name) = Ok true) /\
  (outcome (post_build w snap_name) = Ok (Jsonify [("success", VBool true)]) ->
   lp_build_snap w (Some snap_name) = Ok tt /\
   In (LpBuildSnap (Some snap_name)) (trace (post_build w snap_name))).
Proof.
  pose proof (cancel_and_build_cases w (Some snap_name)) as (Hc & _ & Hb).
  unfold post_build. unfold_monad.
  destruct (api_get_account_snaps w) as [account_snaps|e]; simpl; [|done].
  destruct (bool_decide _); simpl; [|done].
  destruct (cancel_and_build w (Some snap_name)) as [[[]|e] t]; simpl in *.
  - rewrite !app_nil_r. split; [done|]. intros _.
    destruct (Hb eq_refl) as [? ?]. split; [done|]. by right.
  - split; [|by destruct e; try destruct (bool_decide _)].
    destruct e; simpl; rewrite ?app_nil_r; try done.
    destruct (bool_decide _); simpl; rewrite ?app_nil_r; done.
Qed.

(** ** post_snap_builds, further *)

(** Once the guards hold and Launchpad does not know the snap, the view is
    its registration, after a prefix of calls that create nothing. *)
Lemma post_snap_builds_registers w req snap_name details owner repo :
  connect_guards w req snap_name details owner repo ->
  lp_get_snap_by_store_name w (details_snap_name details) = Ok None ->
  outcome (post_snap_builds w req snap_name) =
    match outcome (registration w req snap_name owner repo) with
    | Ok (Some r) => Ok r
    | Ok None => Ok (Redirect (url_for_get_snap_builds w snap_name))
    | Raise e => Raise e
    end /\
  exists prefix,
    trace (post_snap_builds w req snap_name)
      = prefix ++ trace (registration w req snap_name owner repo) /\
    Forall (fun e => is_create e = false /\ is_delete_request e = false) prefix.
Proof.
  intros (Hinfo & (accounts & Hacc & Hin) & Hunpack & Hperm & r & Hval & Hsucc)
    Hlookup.
  pose proof (validate_repo_trace_cases w (github_auth_secret req)
                (Some snap_name) owner repo) as Htr.
  unfold post_snap_builds, get_details_or_respond, registration. unfold_monad.
  rewrite Hinfo. simpl. rewrite Hacc. simpl.
  rewrite bool_decide_true by done. simpl. rewrite Hunpack. simpl.
  rewrite Hperm. simpl.
  destruct (validate_repo w _ _ _ _) as [rv tv]. simpl in Hval, Htr. subst rv.
  rewrite Hsucc. simpl. rewrite Hlookup. simpl.
  destruct (register_repository w req snap_name owner repo _ _)
    as [[[resp|]|e] t]; simpl; (split; [done|]);
    rewrite ?app_nil_r;
    (eexists (_ :: _ :: _ :: tv ++ [_]); split;
     [simpl; by rewrite <- ?app_assoc|]);
    repeat (constructor; [done|]);
    (apply Forall_app; split; [|by repeat constructor]);
    destruct Htr as [-> | ->]; by repeat constructor.
Qed.

(** X14: [post_snap_builds] calls [launchpad.create_snap] only for a
    contributor with rights over the repository named in the form, whose
    repository validates, and only when Launchpad has no snap under the
    store name. *)
Theorem post_snap_builds_create_guarded w req snap_name :
  existsb is_create_snap (trace (post_snap_builds w req snap_name)) = true ->
  exists details owner repo,
    connect_guards w req snap_name details owner repo /\
    lp_get_snap_by_store_name w (details_snap_name details) = Ok None.
Proof.
  unfold post_snap_builds, get_details_or_respond, connect_guards.
  unfold_monad.
  destruct (api_get_snap_info w snap_name) as [details|e] eqn:Hinfo; simpl.
  2: { run; done. }
  destruct (api_get_account_snaps w) as [accounts|e] eqn:Hacc; simpl; [|done].
  destruct (bool_decide (snap_name ∈ accounts)) eqn:Hin; simpl; [|done].
  apply bool_decide_eq_true in Hin.
  destruct (unpack_repository _) as [[owner repo]|e] eqn:Hunpack; simpl;
    [|done].
  destruct (gh_check_permissions_over_repo w _ owner repo) as [[|]|e]
    eqn:Hperm; simpl; [|done|done].
  pose proof (validate_repo_trace_cases w (github_auth_secret req)
                (Some snap_name) owner repo) as Htr.
  pose proof (validate_repo_well_formed w (github_auth_secret req)
                (Some snap_name) owner repo) as Hwf.
  unfold outcome, trace in Htr, Hwf.
  destruct (validate_repo w _ _ _ _) as [[r|e] tv] eqn:Hval; simpl in *.
  2: { destruct Htr as [-> | ->]; done. }
  destruct (Hwf r eq_refl) as (b & Hsucc & Herr & _).
  rewrite Hsucc. simpl. destruct b; simpl.
  - destruct (lp_get_snap_by_store_name w _) as [[lp_snap|]|e] eqn:Hlookup;
      simpl.
    + intros H. exfalso. revert H.
      destruct (String.eqb _ _); simpl; rewrite ?app_nil_r;
        destruct Htr as [-> | ->]; done.
    + intros _. exists details, owner, repo. rewrite Hval. simpl.
      repeat split; eauto.
    + destruct Htr as [-> | ->]; done.
  - unfold dict_has in Herr.
    destruct (dict_get "error" r) as [err|]; [|done]. simpl.
    destruct (getitem "message" err); simpl; rewrite ?app_nil_r;
      destruct Htr as [-> | ->]; done.
Qed.

(** X15: a user who is not a contributor is redirected with a flash before
    any GitHub or Launchpad call; a contributor without rights over the
    repository is redirected with a flash right after the permission
    check, before the repository is validated. *)
Theorem post_snap_builds_refuses w req snap_name details account_snaps :
  api_get_snap_info w snap_name = Ok details ->
  api_get_account_snaps w = Ok account_snaps ->
  (snap_name ∉ account_snaps ->
   post_snap_builds w req snap_name =
     (Ok (Redirect (url_for_get_snap_builds w snap_name)),
      [ApiGetSnapInfo snap_name; ApiGetAccountSnaps;
       Flash "You do not have permissions to modify this Snap" "negative"])) /\
  (forall owner repo,
     snap_name ∈ account_snaps ->
     unpack_repository (form_github_repository req) = Ok (owner, repo) ->
     gh_check_permissions_over_repo w (github_auth_secret req) owner repo
       = Ok false ->
     post_snap_builds w req snap_name =
       (Ok (Redirect (url_for_get_snap_builds w snap_name)),
        [ApiGetSnapInfo snap_name; ApiGetAccountSnaps;
         GhCheckPermissionsOverRepo owner repo;
         Flash "Your GitHub account doesn't have permissions in the repository"
               "negative"])).
Proof.
  intros Hinfo Hacc. unfold post_snap_builds, get_details_or_respond.
  unfold_monad. rewrite Hinfo. simpl. rewrite Hacc. simpl. split.
  - intros Hin. by rewrite bool_decide_false.
  - intros owner repo Hin Hunpack Hperm. rewrite bool_decide_true by done.
    simpl. rewrite Hunpack. simpl. by rewrite Hperm.
Qed.

(** X16: when Launchpad already has the snap, nothing is created: the view
    redirects when the snap is built from the same repository, and raises
    AttributeError when it is built from another one. *)
Theorem post_snap_builds_already_linked w req snap_name details owner repo
    lp_snap :
  connect_guards w req snap_name details owner repo ->
  lp_get_snap_by_store_name w (details_snap_name details) = Ok (Some lp_snap) ->
  existsb is_create (trace (post_snap_builds w req snap_name)) = false /\
  (git_repository_url lp_snap = github_url owner repo ->
   outcome (post_snap_builds w req snap_name)
     = Ok (Redirect (url_for_get_snap_builds w snap_name))) /\
  (git_repository_url lp_snap <> github_url owner repo ->
   outcome (post_snap_builds w req snap_name)
     = Raise (AttributeError
                ("Snap " +:+ snap_name +:+
                 " already has a build repository associated"))).
Proof.
  intros (Hinfo & (accounts & Hacc & Hin) & Hunpack & Hperm & r & Hval & Hsucc)
    Hlookup.
  pose proof (validate_repo_trace_cases w (github_auth_secret req)
                (Some snap_name) owner repo) as Htr.
  unfold post_snap_builds, get_details_or_respond. unfold_monad.
  rewrite Hinfo. simpl. rewrite Hacc. simpl.
  rewrite bool_decide_true by done. simpl. rewrite Hunpack. simpl.
  rewrite Hperm. simpl.
  destruct (validate_repo w _ _ _ _) as [rv tv]. simpl in Hval, Htr. subst rv.
  rewrite Hsucc. simpl. rewrite Hlookup. simpl.
  destruct (String.eqb (git_repository_url lp_snap) _) eqn:Hurl; simpl.
  - apply String.eqb_eq in Hurl. rewrite ?app_nil_r.
    split; [destruct Htr as [-> | ->]; done|]. split; [done|]. congruence.
  - apply String.eqb_neq in Hurl. rewrite ?app_nil_r.
    split; [destruct Htr as [-> | ->]; done|]. split; [congruence|done].
Qed.

Ltac bridge H Hlookup :=
  let Hout := fresh "Hout" in
  let Htr := fresh "Htrace" in
  destruct (post_snap_builds_registers _ _ _ _ _ _ H Hlookup)
    as (Hout & before & Htr & Hprefix);
  rewrite Hout, Htr; clear Hout Htr.

Lemma prefix_quiet (prefix : list event) p :
  Forall (fun e => is_create e = false /\ is_delete_request e = false) prefix ->
  (forall e, p e = true -> is_create e = true \/ is_delete_request e = true) ->
  existsb p prefix = false.
Proof.
  intros Hall Hp. induction Hall as [|e l [Hc Hd] _ IH]; simpl; [done|].
  rewrite IH, orb_false_r. destruct (p e) eqn:He; [|done].
  destruct (Hp e He); congruence.
Qed.

(** X17: when the repository is registered in Launchpad under another
    store name, the view flashes that name and redirects; it neither
    creates nor deletes anything. *)
Theorem post_snap_builds_repository_taken w req snap_name details owner repo
    existing :
  connect_guards w req snap_name details owner repo ->
  lp_get_snap_by_store_name w (details_snap_name details) = Ok None ->
  lp_get_snap w (repository_hash w owner repo) = Ok (Some existing) ->
  truthy (store_name existing) = true ->
  outcome (post_snap_builds w req snap_name)
    = Ok (Redirect (url_for_get_snap_builds w snap_name)) /\
  In (Flash ("The specified repository is being used by another snap:" +:+
             " " +:+ fmt (store_name existing)) "negative")
     (trace (post_snap_builds w req snap_name)) /\
  existsb is_create (trace (post_snap_builds w req snap_name)) = false /\
  existsb is_delete_request (trace (post_snap_builds w req snap_name)) = false.
Proof.
  intros Hguards Hlookup Hexisting Htaken. bridge Hguards Hlookup.
  unfold registration, register_repository, repository_hash in *.
  unfold_monad. rewrite Hexisting. simpl. rewrite Htaken. simpl.
  split; [done|]. split; [apply in_or_app; right; simpl; tauto|].
  rewrite !existsb_app. simpl.
  rewrite (prefix_quiet _ is_create Hprefix) by tauto.
  rewrite (prefix_quiet _ is_delete_request Hprefix) by tauto. done.
Qed.

(** X18: when the repository is registered in Launchpad without a store
    name, the view deletes that record and then goes on to create the snap;
    when the deletion fails, the failure propagates and nothing is
    created. *)
Theorem post_snap_builds_legacy_record w req snap_name details owner repo
    existing :
  connect_guards w req snap_name details owner repo ->
  lp_get_snap_by_store_name w (details_snap_name details) = Ok None ->
  lp_get_snap w (repository_hash w owner repo) = Ok (Some existing) ->
  truthy (store_name existing) = false ->
  (forall e,
     lp_request_delete w (snap_self_link existing) = Raise e ->
     outcome (post_snap_builds w req snap_name) = Raise e /\
     existsb is_create (trace (post_snap_builds w req snap_name)) = false) /\
  (forall macaroon,
     lp_request_delete w (snap_self_link existing) = Ok tt ->
     api_get_package_upload_macaroon w snap_name = Ok macaroon ->
     exists before after,
       trace (post_snap_builds w req snap_name)
         = before ++
           [LpRequestDelete (snap_self_link existing);
            ApiGetPackageUploadMacaroon snap_name;
            LpCreateSnap snap_name (github_url owner repo) macaroon] ++ after).
Proof.
  intros Hguards Hlookup Hexisting Hlegacy. bridge Hguards Hlookup.
  unfold registration, register_repository, repository_hash in *.
  unfold_monad. rewrite Hexisting. simpl. rewrite Hlegacy. simpl. split.
  - intros e ->. simpl. split; [done|].
    rewrite !existsb_app. simpl.
    by rewrite (prefix_quiet _ is_create Hprefix) by tauto.
  - intros macaroon -> ->. simpl.
    destruct (lp_create_snap w _ _ _) as [[]|e]; simpl.
    + destruct (gh_get_hook_by_url w _ _ _ _) as [[hook|]|e]; simpl;
        try destruct (gh_create_hook w _ _ _ _) as [[]|e']; simpl;
        try destruct e; try destruct e'; simpl;
        eexists (_ ++ [_]), _; rewrite <- app_assoc; simpl; reflexivity.
    + eexists (_ ++ [_]), _; rewrite <- app_assoc; simpl; reflexivity.
Qed.

(** X19: for a repository Launchpad does not know (no snap, or a 404), the
    view creates the snap for the repository's GitHub URL with the upload
    macaroon, flashes the success, and creates the webhook unless GitHub
    already has one for the snap's notification URL. *)
Theorem post_snap_builds_links w req snap_name details owner repo macaroon
    hook :
  connect_guards w req snap_name details owner repo ->
  lp_get_snap_by_store_name w (details_snap_name details) = Ok None ->
  not_registered w owner repo ->
  api_get_package_upload_macaroon w snap_name = Ok macaroon ->
  lp_create_snap w snap_name (github_url owner repo) macaroon = Ok tt ->
  gh_get_hook_by_url w (github_auth_secret req) owner repo
                     (webhook_url snap_name) = Ok hook ->
  (hook = None ->
   gh_create_hook w (github_auth_secret req) owner repo
                  (webhook_url snap_name) = Ok tt) ->
  outcome (post_snap_builds w req snap_name)
    = Ok (Redirect (url_for_get_snap_builds w snap_name)) /\
  exists before,
    trace (post_snap_builds w req snap_name)
      = before ++
        [LpGetSnap (repository_hash w owner repo);
         ApiGetPackageUploadMacaroon snap_name;
         LpCreateSnap snap_name (github_url owner repo) macaroon;
         LINKED;
         GhGetHookByUrl owner repo (webhook_url snap_name)] ++
        match hook with
        | None => [GhCreateHook owner repo (webhook_url snap_name)]
        | Some _ => []
        end.
Proof.
  intros Hguards Hlookup Hfree Hmac Hcreate Hhook Hnew.
  bridge Hguards Hlookup.
  unfold registration, register_repository, not_registered, repository_hash,
    LINKED in *.
  unfold_monad.
  destruct Hfree as [-> | ->]; simpl; rewrite Hmac; simpl; rewrite Hcreate;
    simpl; rewrite Hhook; simpl;
    (destruct hook as [hook|]; simpl; [|rewrite (Hnew eq_refl); simpl]);
    (split; [done|]); eexists; reflexivity.
Qed.

(** X20: an HTTPError from GitHub while looking up or creating the webhook
    does not fail the view: the snap has been created, a caution is
    flashed, and the user is redirected. *)
Theorem post_snap_builds_hook_failure w req snap_name details owner repo
    macaroon code :
  connect_guards w req snap_name details owner repo ->
  lp_get_snap_by_store_name w (details_snap_name details) = Ok None ->
  not_registered w owner repo ->
  api_get_package_upload_macaroon w snap_name = Ok macaroon ->
  lp_create_snap w snap_name (github_url owner repo) macaroon = Ok tt ->
  (gh_get_hook_by_url w (github_auth_secret req) owner repo
                      (webhook_url snap_name) = Raise (HTTPError code) \/
   (gh_get_hook_by_url w (github_auth_secret req) owner repo
                       (webhook_url snap_name) = Ok None /\
    gh_create_hook w (github_auth_secret req) owner repo
                   (webhook_url snap_name) = Raise (HTTPError code))) ->
  outcome (post_snap_builds w req snap_name)
    = Ok (Redirect (url_for_get_snap_builds w snap_name)) /\
  In (LpCreateSnap snap_name (github_url owner repo) macaroon)
     (trace (post_snap_builds w req snap_name)) /\
  In HOOK_FAILED (trace (post_snap_builds w req snap_name)).
Proof.
  intros Hguards Hlookup Hfree Hmac Hcreate Hfail.
  bridge Hguards Hlookup.
  unfold registration, register_repository, not_registered, repository_hash,
    HOOK_FAILED in *.
  unfold_monad.
  destruct Hfree as [-> | ->]; simpl; rewrite Hmac; simpl; rewrite Hcreate;
    simpl; destruct Hfail as [-> | [-> ->]]; simpl;
    (split; [done|]); split; apply in_or_app; right; simpl; tauto.
Qed.

(** X21: any failure of the lookup by repository hash other than an
    HTTPError 404 propagates, and nothing is created. *)
Theorem post_snap_builds_lookup_error w req snap_name details owner repo e :
  connect_guards w req snap_name details owner repo ->
  lp_get_snap_by_store_name w (details_snap_name details) = Ok None ->
  lp_get_snap w (repository_hash w owner repo) = Raise e ->
  e <> HTTPError 404 ->
  outcome (post_snap_builds w req snap_name) = Raise e /\
  existsb is_create (trace (post_snap_builds w req snap_name)) = false.
Proof.
  intros Hguards Hlookup Hraise Hne. bridge Hguards Hlookup.
  unfold registration, register_repository, repository_hash in *.
  unfold_monad. rewrite Hraise. simpl.
  assert (Hquiet : existsb is_create (before ++ [LpGetSnap
            (md5_hexdigest w (github_url owner repo))]) = false).
  { rewrite existsb_app. simpl.
    by rewrite (prefix_quiet _ is_create Hprefix) by tauto. }
  destruct e as [code| | | | | | | | | | ]; simpl; try done.
  destruct (Z.eqb_spec code 404); [congruence|done].
Qed.

(** ** get_snap_build and the shared prologue *)

Ltac unfold_more :=
  unfold widen, xcall, xtry_except, xoutcome, xtrace, lift, call, raise, flash,
    try_except, mbind, MX_bind, M_bind, mret, MX_ret, M_ret, outcome, trace
    in *.

(** X22: what [get_snap_build] renders follows Launchpad's answer.  No
    build gives an empty record, no raw logs and no log request.  A build
    gives its record; the log is fetched and shown as raw logs when the
    build's log URL is truthy, and neither fetched nor shown otherwise. *)
Theorem get_snap_build_raw_logs w snap_name build_id details :
  api_get_snap_info w snap_name = Ok details ->
  (lp_get_snap_build w (details_snap_name details) build_id = Ok None ->
   get_snap_build w snap_name build_id =
     (Ok (RenderBuild (build_context details None None)),
      [ApiGetSnapInfo snap_name;
       LpGetSnapBuild (details_snap_name details) build_id])) /\
  (forall lp_build status,
     lp_get_snap_build w (details_snap_name details) build_id
       = Ok (Some lp_build) ->
     map_build_and_upload_states w (buildstate lp_build)
                                 (store_upload_status lp_build) = Ok status ->
     exists ident,
       build_id_of (self_link lp_build) = Ok ident /\
       (value_truthy (build_log_url lp_build) = false ->
        get_snap_build w snap_name build_id =
          (Ok (RenderBuild
                 (build_context details
                    (Some (snap_build_of lp_build ident status)) None)),
           [ApiGetSnapInfo snap_name;
            LpGetSnapBuild (details_snap_name details) build_id])) /\
       (forall raw,
          value_truthy (build_log_url lp_build) = true ->
          lp_get_snap_build_log w (details_snap_name details) build_id
            = Ok raw ->
          get_snap_build w snap_name build_id =
            (Ok (RenderBuild
                   (build_context details
                      (Some (snap_build_of lp_build ident status))
                      (Some raw))),
             [ApiGetSnapInfo snap_name;
              LpGetSnapBuild (details_snap_name details) build_id;
              LpGetSnapBuildLog (details_snap_name details) build_id]))).
Proof.
  intros Hinfo.
  unfold get_snap_build, get_details_or_respond, build_context, snap_build_of.
  unfold_monad. rewrite Hinfo. simpl. split.
  - by intros ->.
  - intros lp_build status -> Hstatus. simpl. rewrite Hstatus. simpl.
    destruct (build_id_of_trailing (self_link lp_build)) as (ident & Hid & _).
    exists ident. split; [done|]. rewrite Hid. simpl. split.
    + by intros ->.
    + intros raw -> Hraw. simpl. by rewrite Hraw.
Qed.

(** X23: when the dashboard API answers 404 for the snap, every view that
    starts by fetching the snap aborts with "No snap named ..." after that
    one call. *)
Theorem views_answer_404 x req repo_arg build_id snap_name errors :
  api_get_snap_info (core x) snap_name
    = Raise (ApiResponseErrorList 404 errors) ->
  get_snap_build (core x) snap_name build_id
    = (Raise (no_snap_named snap_name), [ApiGetSnapInfo snap_name]) /\
  get_snap_builds_json (core x) req snap_name
    = (Raise (no_snap_named snap_name), [ApiGetSnapInfo snap_name]) /\
  get_validate_repo (core x) req repo_arg snap_name
    = (Raise (no_snap_named snap_name), [ApiGetSnapInfo snap_name]) /\
  post_snap_builds (core x) req snap_name
    = (Raise (no_snap_named snap_name), [ApiGetSnapInfo snap_name]) /\
  get_snap_builds x req snap_name
    = (Raise (no_snap_named snap_name), [Core (ApiGetSnapInfo snap_name)]) /\
  post_disconnect_repo x req snap_name
    = (Raise (no_snap_named snap_name), [Core (ApiGetSnapInfo snap_name)]) /\
  post_update_gh_webhooks x req snap_name
    = (Raise (no_snap_named snap_name), [Core (ApiGetSnapInfo snap_name)]).
Proof.
  intros Hinfo.
  unfold get_snap_build, get_snap_builds_json, get_validate_repo,
    post_snap_builds, get_snap_builds, post_disconnect_repo,
    post_update_gh_webhooks, get_details_or_respond, api_error_response,
    no_snap_named.
  unfold_more. rewrite Hinfo. simpl. by repeat split.
Qed.

(** ** get_snap_builds *)

Lemma getslice_first_length {A} (l : list A) size :
  0 <= size -> (length (getslice l (Slice 0 size)) <= Z.to_nat size)%nat.
Proof.
  intros H. rewrite getslice_nonneg by lia. rewrite length_take. lia.
Qed.

(** X24: the builds page shows at most 15 rows and never more than
    [total_builds]; builds are flagged as enabled exactly when there is a
    row; without a linked repository there are no rows. *)
Theorem get_snap_builds_page x req snap_name context t :
  get_snap_builds x req snap_name = (Ok (RenderBuilds context), t) ->
  (snap_builds_enabled context = true <-> bc_snap_builds context <> []) /\
  (length (bc_snap_builds context) <= 15)%nat /\
  (length (bc_snap_builds context) <= bc_total_builds context)%nat /\
  (github_repository context = None ->
   bc_snap_builds context = [] /\ bc_total_builds context = 0%nat).
Proof.
  unfold get_snap_builds, api_error_response. unfold_more.
  destruct (api_get_snap_info (core x) snap_name) as [details|e]; simpl.
  2: { run; done. }
  destruct (api_get_package_upload_macaroon (core x) snap_name) as [m|e];
    simpl.
  2: { run; done. }
  destruct (lp_get_snap_by_store_name (core x) _) as [[lp_snap|]|e]; simpl;
    [| |done].
  - destruct (split "/" _) as [|owner [|repo [|]]]; simpl; try done.
    destruct (gh_get_snapcraft_yaml_location (core x) _ owner repo)
      as [loc|e]; simpl; [|done].
    destruct (get_builds (core x) lp_snap (Slice 0 BUILDS_PER_PAGE))
      as [[b|e] tb] eqn:Hb; simpl.
    2: { by destruct (truthy loc). }
    destruct (get_builds_inv _ _ _ _ _ Hb) as (builds & _ & Hlen & Hrows).
    apply Forall2_length in Hrows.
    pose proof (getslice_first_length builds BUILDS_PER_PAGE) as Hpage.
    pose proof (getslice_length builds (Slice 0 BUILDS_PER_PAGE)) as Hall.
    unfold BUILDS_PER_PAGE in *.
    destruct (truthy loc); simpl; intros [= <- <-]; simpl;
      (split; [by destruct (snap_builds b)|]);
      (split; [lia|]); (split; [lia|done]).
  - destruct (gh_get_user x _) as [user|[]]; simpl; try done;
      try destruct (value_truthy user); simpl;
      try destruct (gh_get_orgs x _); simpl; try done;
      intros [= <- <-]; simpl; repeat split; try done; lia.
Qed.

(** X25: for a snap without a linked repository the organisations are
    fetched exactly when GitHub returned a user; an Unauthorized answer
    gives a page with no user and no organisations. *)
Theorem get_snap_builds_github_user x req snap_name details macaroon :
  api_get_snap_info (core x) snap_name = Ok details ->
  api_get_package_upload_macaroon (core x) snap_name = Ok macaroon ->
  lp_get_snap_by_store_name (core x) (details_snap_name details) = Ok None ->
  (In GhGetOrgs (xtrace (get_snap_builds x req snap_name)) <->
   exists user,
     gh_get_user x (github_auth_secret req) = Ok user /\
     value_truthy user = true) /\
  (gh_get_user x (github_auth_secret req) = Raise Unauthorized ->
   exists context,
     xoutcome (get_snap_builds x req snap_name) = Ok (RenderBuilds context) /\
     github_user context = Some VNone /\
     github_orgs context = None).
Proof.
  intros Hinfo Hmac Hlookup.
  unfold get_snap_builds, api_error_response. unfold_more.
  rewrite Hinfo. simpl. rewrite Hmac. simpl. rewrite Hlookup. simpl.
  destruct (gh_get_user x _) as [user|e]; simpl.
  - destruct (value_truthy user) eqn:Huser; simpl.
    + destruct (gh_get_orgs x _); simpl; (split; [|done]); split; eauto;
        intros _; do 4 right; by left.
    + split; [|done]. split.
      * intros [|[|[|[|[]]]]]; done.
      * intros (? & [= <-] & ?). congruence.
  - destruct e; simpl; split; try done; try (by eexists);
      (split; [intros H; repeat destruct H as [H|H]; done
              |by intros (? & ? & _)]).
Qed.

(** ** post_disconnect_repo and post_update_gh_webhooks *)

(** X26: without a GitHub token in the session, disconnecting only looks
    the snap up and deletes it in Launchpad; GitHub is not called. *)
Theorem post_disconnect_repo_without_github x req snap_name details lp_snap :
  api_get_snap_info (core x) snap_name = Ok details ->
  lp_get_snap_by_store_name (core x) snap_name = Ok lp_snap ->
  truthy (github_auth_secret req) = false ->
  xtrace (post_disconnect_repo x req snap_name)
    = [Core (ApiGetSnapInfo snap_name);
       Core (LpGetSnapByStoreName snap_name);
       LpDeleteSnap (details_snap_name details)] /\
  (lp_delete_snap x (details_snap_name details) = Ok tt ->
   xoutcome (post_disconnect_repo x req snap_name)
     = Ok (Redirect (url_for_get_snap_builds (core x) snap_name))).
Proof.
  intros Hinfo Hlookup Hsecret.
  unfold post_disconnect_repo, get_details_or_respond. unfold_more.
  rewrite Hinfo. simpl. rewrite Hlookup. simpl.
  destruct (lp_delete_snap x _) as [[]|e]; simpl; [|by split].
  rewrite Hsecret. simpl. split; [done|]. done.
Qed.

(** X27: once the snap is deleted in Launchpad, an HTTPError from GitHub
    while looking up or removing the webhook is ignored and the user is
    redirected. *)
Theorem post_disconnect_repo_ignores_github_errors x req snap_name details
    lp_snap owner repo code :
  api_get_snap_info (core x) snap_name = Ok details ->
  lp_get_snap_by_store_name (core x) snap_name = Ok (Some lp_snap) ->
  lp_delete_snap x (details_snap_name details) = Ok tt ->
  truthy (github_auth_secret req) = true ->
  unpack_repository (Some (str_from 19 (git_repository_url lp_snap)))
    = Ok (owner, repo) ->
  (gh_get_hook_by_url (core x) (github_auth_secret req) owner repo
                      (webhook_url snap_name) = Raise (HTTPError code) \/
   exists hook,
     gh_get_hook_by_url (core x) (github_auth_secret req) owner repo
                        (webhook_url snap_name) = Ok (Some hook) /\
     gh_remove_hook x (github_auth_secret req) owner repo (hook_id hook)
       = Raise (HTTPError code)) ->
  xoutcome (post_disconnect_repo x req snap_name)
    = Ok (Redirect (url_for_get_snap_builds (core x) snap_name)).
Proof.
  intros Hinfo Hlookup Hdelete Hsecret Hunpack Hfail.
  unfold post_disconnect_repo, get_details_or_respond. unfold_more.
  rewrite Hinfo. simpl. rewrite Hlookup. simpl. rewrite Hdelete. simpl.
  rewrite Hsecret. simpl. unfold unpack_repository in Hunpack.
  simpl in Hunpack.
  destruct (split "/" _) as [|o [|r [|]]]; simpl in *; try done.
  injection Hunpack as -> ->.
  destruct Hfail as [-> | (hook & -> & Hremove)]; simpl; [done|].
  by rewrite Hremove.
Qed.

(** X28: when Launchpad finds no snap for the name and the session has a
    GitHub token, the view deletes the snap in Launchpad and then fails with
    a TypeError, which the HTTPError handler does not catch. *)
Theorem post_disconnect_repo_unknown_snap x req snap_name details :
  api_get_snap_info (core x) snap_name = Ok details ->
  lp_get_snap_by_store_name (core x) snap_name = Ok None ->
  lp_delete_snap x (details_snap_name details) = Ok tt ->
  truthy (github_auth_secret req) = true ->
  post_disconnect_repo x req snap_name
    = (Raise (TypeError "'NoneType' object is not subscriptable"),
       [Core (ApiGetSnapInfo snap_name);
        Core (LpGetSnapByStoreName snap_name);
        LpDeleteSnap (details_snap_name details)]).
Proof.
  intros Hinfo Hlookup Hdelete Hsecret.
  unfold post_disconnect_repo, get_details_or_respond. unfold_more.
  rewrite Hinfo. simpl. rewrite Hlookup. simpl. rewrite Hdelete. simpl.
  by rewrite Hsecret.
Qed.

(** X29: [post_update_gh_webhooks] looks for the hook with the old
    build.snapcraft.io URL of the linked repository and, when there is one,
    points it at the snap's notification URL; otherwise it changes
    nothing. *)
Theorem post_update_gh_webhooks_moves_hook x req snap_name details lp_snap
    owner repo hook :
  api_get_snap_info (core x) snap_name = Ok details ->
  lp_get_snap_by_store_name (core x) (details_snap_name details)
    = Ok (Some lp_snap) ->
  unpack_repository (Some (str_from 19 (git_repository_url lp_snap)))
    = Ok (owner, repo) ->
  gh_get_hook_by_url (core x) (github_auth_secret req) owner repo
                     (old_webhook_url owner repo) = Ok hook ->
  xtrace (post_update_gh_webhooks x req snap_name)
    = [Core (ApiGetSnapInfo snap_name);
       Core (LpGetSnapByStoreName (details_snap_name details));
       Core (GhGetHookByUrl owner repo (old_webhook_url owner repo))] ++
      match hook with
      | Some old_hook =>
          [GhUpdateHookUrl owner repo (hook_id old_hook)
                           (webhook_url snap_name)]
      | None => []
      end /\
  (hook = None ->
   xoutcome (post_update_gh_webhooks x req snap_name)
     = Ok (Redirect (url_for_get_snap_builds (core x) snap_name))).
Proof.
  intros Hinfo Hlookup Hunpack Hhook.
  unfold post_update_gh_webhooks, get_details_or_respond. unfold_more.
  rewrite Hinfo. simpl. rewrite Hlookup. simpl.
  unfold unpack_repository in Hunpack. simpl in Hunpack.
  destruct (split "/" _) as [|o [|r [|]]]; simpl in *; try done.
  injection Hunpack as -> ->. rewrite Hhook. simpl.
  destruct hook as [old_hook|]; simpl; [|done].
  by destruct (gh_update_hook_url x _ _ _ _ _) as [[]|e].
Qed.

(** ** Repository names and URLs *)

Lemma no_slash_split s rest :
  no_slash s = true ->
  split "/" (s +:+ String "/" rest) = s :: split "/" rest.
Proof.
  induction s as [|c s IH]; rewrite ?append_cons, ?append_nil; simpl.
  - done.
  - destruct (Ascii.eqb c "/"); simpl; [done|]. intros H.
    by rewrite (IH H).
Qed.

Lemma no_slash_split_whole s : no_slash s = true -> split "/" s = [s].
Proof.
  induction s as [|c s IH]; simpl; [done|].
  destruct (Ascii.eqb c "/"); simpl; [done|]. intros H. by rewrite (IH H).
Qed.

Lemma str_from_github_url owner repo :
  str_from 19 (github_url owner repo) = owner +:+ "/" +:+ repo.
Proof. reflexivity. Qed.

Lemma join_split s : join "/" (split "/" s) = s.
Proof.
  induction s as [|c s IH]; simpl; [done|].
  destruct (Ascii.eqb c "/") eqn:Hc.
  - apply Ascii.eqb_eq in Hc as ->.
    destruct (split "/" s) as [|piece pieces] eqn:Hs.
    { by apply split_nonempty in Hs. }
    rewrite <- IH. reflexivity.
  - destruct (split "/" s) as [|piece pieces] eqn:Hs.
    { by apply split_nonempty in Hs. }
    rewrite <- IH. destruct pieces; reflexivity.
Qed.

(** X30: a repository accepted from the form as owner/repo is registered
    under a GitHub URL from which the other views recover the same owner
    and repo. *)
Theorem github_url_round_trip text owner repo :
  unpack_repository (Some text) = Ok (owner, repo) ->
  text = owner +:+ "/" +:+ repo /\
  unpack_repository (Some (str_from 19 (github_url owner repo)))
    = Ok (owner, repo).
Proof.
  unfold unpack_repository. intros H.
  pose proof (split_no_slash text) as Hall.
  pose proof (join_split text) as Hjoin.
  destruct (split "/" text) as [|o [|r [|]]] eqn:Hs; try done.
  injection H as -> ->.
  inversion Hall as [|? ? Ho Hall']; subst.
  inversion Hall' as [|? ? Hr _]; subst.
  split; [done|].
  rewrite str_from_github_url.
  change (owner +:+ "/" +:+ repo) with (owner +:+ String "/" repo).
  rewrite no_slash_split by done. by rewrite no_slash_split_whole.
Qed.


(** ** Concrete runs *)

Ltac guards_hold :=
  split; [reflexivity|];
  split; [exists ["toto"]; split; [reflexivity|apply list_elem_of_here]|];
  split; [reflexivity|]; split; [reflexivity|];
  eexists; split; reflexivity.

Lemma validate_repo_success_iff_witness :
  dict_get "success" [("success", VBool true)] = Some (VBool true) <->
  exists location,
    gh_get_snapcraft_yaml_location fresh_world (Some "secret")
                                   "canonical" "toto" = Ok location /\
    truthy location = true /\
    gh_get_snapcraft_yaml_name fresh_world (Some "secret") "canonical" "toto"
      = Ok (Some "toto").
Proof.
  apply (validate_repo_success_iff fresh_world (Some "secret") (Some "toto")
           "canonical" "toto").
  reflexivity.
Defined.

Lemma validate_repo_reads_only_witness :
  In (GhGetSnapcraftYamlName "canonical" "toto")
     (trace (validate_repo fresh_world (Some "secret") (Some "toto")
                           "canonical" "toto")).
Proof.
  apply (proj2 (validate_repo_reads_only fresh_world (Some "secret")
                  (Some "toto") "canonical" "toto")).
  exists (Some "snapcraft.yaml"). by split.
Defined.

Lemma post_github_webhook_build_guarded_witness :
  (exists lp_snap r,
     webhook_guards linked_world (sample_request "master" None None) None
                    lp_snap /\
     outcome (validation_of linked_world (sample_request "master" None None)
                            lp_snap) = Ok r /\
     dict_get "success" r = Some (VBool true)) /\
  "master" = repository_default_branch (json (sample_request "master" None None)).
Proof.
  destruct (post_github_webhook_build_guarded linked_world
              (sample_request "master" None None) None eq_refl)
    as [Hguards Hbranch].
  split; [exact Hguards|exact (Hbranch "master" eq_refl)].
Defined.

Lemma post_github_webhook_accepts_witness :
  outcome (post_github_webhook linked_world
             (sample_request "master" None None) None)
    = Ok (Body EmptyString 204).
Proof.
  refine (proj1 (post_github_webhook_accepts linked_world
                   (sample_request "master" None None) None
                   (registered_snap (Some "toto")) [("success", VBool true)]
                   _ eq_refl eq_refl) eq_refl).
  by repeat split.
Defined.

Lemma post_github_webhook_rejects_invalid_repo_witness :
  exists msg,
    error_message
      [("success", VBool false);
       ("error",
        VDict [("type", VStr "INVALID_YAML_FILE");
               ("message", VStr (invalid_yaml_message (Some "toto")))])]
      = Ok (VStr msg) /\
    outcome (post_github_webhook
               (scenario_world (Ok toto_details)
                  (Ok (Some (registered_snap (Some "toto")))) (Ok None) true
                  (Raise InvalidYAML) (Ok None))
               (sample_request "master" None None) (Some "toto"))
      = Ok (Body msg 400).
Proof.
  apply (post_github_webhook_rejects_invalid_repo
           (scenario_world (Ok toto_details)
              (Ok (Some (registered_snap (Some "toto")))) (Ok None) true
              (Raise InvalidYAML) (Ok None))
           (sample_request "master" None None) (Some "toto")
           (registered_snap (Some "toto"))).
  - by repeat split.
  - reflexivity.
  - reflexivity.
Defined.

Lemma post_github_webhook_other_repository_witness :
  outcome (post_github_webhook linked_world foreign_request (Some "toto"))
    = Ok (Body "The repository does not match the one used by this Snap" 403) /\
  trace (post_github_webhook linked_world foreign_request (Some "toto"))
    = [LpGetSnapByStoreName "toto"].
Proof.
  apply (post_github_webhook_other_repository linked_world foreign_request
           (Some "toto") (registered_snap (Some "toto")) eq_refl eq_refl).
  discriminate.
Defined.

Lemma post_github_webhook_unknown_snap_witness :
  outcome (post_github_webhook fresh_world
             (sample_request "master" None None) (Some "toto"))
    = Raise (TypeError "'NoneType' object is not subscriptable") /\
  trace (post_github_webhook fresh_world
           (sample_request "master" None None) (Some "toto"))
    = [LpGetSnapByStoreName "toto"].
Proof.
  apply (post_github_webhook_unknown_snap fresh_world
           (sample_request "master" None None) (Some "toto") eq_refl eq_refl).
Defined.

Lemma post_build_forbidden_witness :
  exists message,
    outcome (post_build linked_world "other")
      = Ok (Jsonify [("success", VBool false);
                     ("error", VDict [("type", VStr "FORBIDDEN");
                                      ("message", VStr message)])]) /\
    trace (post_build linked_world "other") = [ApiGetAccountSnaps].
Proof.
  apply (post_build_forbidden linked_world "other" ["toto"] eq_refl).
  intros H. apply list_elem_of_singleton in H. discriminate.
Defined.

Lemma post_build_cancels_and_builds_witness :
  lp_is_snap_building linked_world (Some "toto") = Ok true /\
  lp_build_snap linked_world (Some "toto") = Ok tt /\
  In (LpBuildSnap (Some "toto")) (trace (post_build linked_world "toto")).
Proof.
  destruct (post_build_cancels_and_builds linked_world "toto")
    as [Hcancel Hbuild].
  split; [exact (Hcancel eq_refl)|exact (Hbuild eq_refl)].
Defined.

Lemma post_snap_builds_create_guarded_witness :
  exists details owner repo,
    connect_guards fresh_world (sample_request "master" None None) "toto"
                   details owner repo /\
    lp_get_snap_by_store_name fresh_world (details_snap_name details)
      = Ok None.
Proof.
  apply (post_snap_builds_create_guarded fresh_world
           (sample_request "master" None None) "toto").
  reflexivity.
Defined.

Lemma post_snap_builds_refuses_witness :
  post_snap_builds fresh_world (sample_request "master" None None) "other" =
    (Ok (Redirect "/other/builds"),
     [ApiGetSnapInfo "other"; ApiGetAccountSnaps;
      Flash "You do not have permissions to modify this Snap" "negative"]) /\
  post_snap_builds
    (scenario_world (Ok toto_details) (Ok None) (Ok None) false
                    (Ok (Some "toto")) (Ok None))
    (sample_request "master" None None) "toto" =
    (Ok (Redirect "/toto/builds"),
     [ApiGetSnapInfo "toto"; ApiGetAccountSnaps;
      GhCheckPermissionsOverRepo "canonical" "toto";
      Flash "Your GitHub account doesn't have permissions in the repository"
            "negative"]).
Proof.
  split.
  - apply (proj1 (post_snap_builds_refuses fresh_world
                    (sample_request "master" None None) "other"
                    toto_details ["toto"] eq_refl eq_refl)).
    intros H. apply list_elem_of_singleton in H. discriminate.
  - apply (proj2 (post_snap_builds_refuses
                    (scenario_world (Ok toto_details) (Ok None) (Ok None)
                                    false (Ok (Some "toto")) (Ok None))
                    (sample_request "master" None None) "toto"
                    toto_details ["toto"] eq_refl eq_refl)
                 "canonical" "toto").
    + apply list_elem_of_here.
    + reflexivity.
    + reflexivity.
Defined.

Lemma post_snap_builds_already_linked_witness :
  existsb is_create
    (trace (post_snap_builds linked_world
              (sample_request "master" None None) "toto")) = false /\
  outcome (post_snap_builds linked_world
             (sample_request "master" None None) "toto")
    = Ok (Redirect "/toto/builds").
Proof.
  destruct (post_snap_builds_already_linked linked_world
              (sample_request "master" None None) "toto" toto_details
              "canonical" "toto" (registered_snap (Some "toto")))
    as (Hquiet & Hsame & _).
  - guards_hold.
  - reflexivity.
  - split; [exact Hquiet|exact (Hsame eq_refl)].
Defined.

Lemma post_snap_builds_repository_taken_witness :
  outcome (post_snap_builds
             (scenario_world (Ok toto_details) (Ok None)
                (Ok (Some (registered_snap (Some "titi")))) true
                (Ok (Some "toto")) (Ok None))
             (sample_request "master" None None) "toto")
    = Ok (Redirect "/toto/builds") /\
  existsb is_create
    (trace (post_snap_builds
              (scenario_world (Ok toto_details) (Ok None)
                 (Ok (Some (registered_snap (Some "titi")))) true
                 (Ok (Some "toto")) (Ok None))
              (sample_request "master" None None) "toto")) = false.
Proof.
  destruct (post_snap_builds_repository_taken
              (scenario_world (Ok toto_details) (Ok None)
                 (Ok (Some (registered_snap (Some "titi")))) true
                 (Ok (Some "toto")) (Ok None))
              (sample_request "master" None None) "toto" toto_details
              "canonical" "toto" (registered_snap (Some "titi")))
    as (Hout & _ & Hquiet & _).
  - guards_hold.
  - reflexivity.
  - reflexivity.
  - reflexivity.
  - by split.
Defined.

Lemma post_snap_builds_legacy_record_witness :
  exists before after,
    trace (post_snap_builds
             (scenario_world (Ok toto_details) (Ok None)
                (Ok (Some (registered_snap None))) true
                (Ok (Some "toto")) (Ok None))
             (sample_request "master" None None) "toto")
      = before ++
        [LpRequestDelete "https://api.launchpad.net/devel/~bsi/+snap/0a1b";
         ApiGetPackageUploadMacaroon "toto";
         LpCreateSnap "toto" "https://github.com/canonical/toto" "macaroon"]
        ++ after.
Proof.
  destruct (post_snap_builds_legacy_record
              (scenario_world (Ok toto_details) (Ok None)
                 (Ok (Some (registered_snap None))) true
                 (Ok (Some "toto")) (Ok None))
              (sample_request "master" None None) "toto" toto_details
              "canonical" "toto" (registered_snap None))
    as (_ & Hcreates).
  - guards_hold.
  - reflexivity.
  - reflexivity.
  - reflexivity.
  - exact (Hcreates "macaroon" eq_refl eq_refl).
Defined.

Lemma post_snap_builds_links_witness :
  outcome (post_snap_builds fresh_world
             (sample_request "master" None None) "toto")
    = Ok (Redirect "/toto/builds") /\
  exists before,
    trace (post_snap_builds fresh_world
             (sample_request "master" None None) "toto")
      = before ++
        [LpGetSnap "0a1b";
         ApiGetPackageUploadMacaroon "toto";
         LpCreateSnap "toto" "https://github.com/canonical/toto" "macaroon";
         LINKED;
         GhGetHookByUrl "canonical" "toto"
                        "https://snapcraft.io/toto/webhook/notify";
         GhCreateHook "canonical" "toto"
                      "https://snapcraft.io/toto/webhook/notify"].
Proof.
  apply (post_snap_builds_links fresh_world
           (sample_request "master" None None) "toto" toto_details
           "canonical" "toto" "macaroon" None).
  - guards_hold.
  - reflexivity.
  - by left.
  - reflexivity.
  - reflexivity.
  - reflexivity.
  - reflexivity.
Defined.

Lemma post_snap_builds_hook_failure_witness :
  outcome (post_snap_builds
             (scenario_world (Ok toto_details) (Ok None)
                (Raise (HTTPError 404)) true (Ok (Some "toto"))
                (Raise (HTTPError 502)))
             (sample_request "master" None None) "toto")
    = Ok (Redirect "/toto/builds") /\
  In (LpCreateSnap "toto" "https://github.com/canonical/toto" "macaroon")
     (trace (post_snap_builds
               (scenario_world (Ok toto_details) (Ok None)
                  (Raise (HTTPError 404)) true (Ok (Some "toto"))
                  (Raise (HTTPError 502)))
               (sample_request "master" None None) "toto")) /\
  In HOOK_FAILED
     (trace (post_snap_builds
               (scenario_world (Ok toto_details) (Ok None)
                  (Raise (HTTPError 404)) true (Ok (Some "toto"))
                  (Raise (HTTPError 502)))
               (sample_request "master" None None) "toto")).
Proof.
  apply (post_snap_builds_hook_failure
           (scenario_world (Ok toto_details) (Ok None)
              (Raise (HTTPError 404)) true (Ok (Some "toto"))
              (Raise (HTTPError 502)))
           (sample_request "master" None None) "toto" toto_details
           "canonical" "toto" "macaroon" 502).
  - guards_hold.
  - reflexivity.
  - by right.
  - reflexivity.
  - reflexivity.
  - by left.
Defined.

Lemma post_snap_builds_lookup_error_witness :
  outcome (post_snap_builds
             (scenario_world (Ok toto_details) (Ok None)
                (Raise (HTTPError 500)) true (Ok (Some "toto")) (Ok None))
             (sample_request "master" None None) "toto")
    = Raise (HTTPError 500) /\
  existsb is_create
    (trace (post_snap_builds
              (scenario_world (Ok toto_details) (Ok None)
                 (Raise (HTTPError 500)) true (Ok (Some "toto")) (Ok None))
              (sample_request "master" None None) "toto")) = false.
Proof.
  apply (post_snap_builds_lookup_error
           (scenario_world (Ok toto_details) (Ok None)
              (Raise (HTTPError 500)) true (Ok (Some "toto")) (Ok None))
           (sample_request "master" None None) "toto" toto_details
           "canonical" "toto" (HTTPError 500)).
  - guards_hold.
  - reflexivity.
  - reflexivity.
  - discriminate.
Defined.

Lemma get_snap_build_raw_logs_witness :
  exists ident,
    build_id_of (self_link queued_build) = Ok ident /\
    get_snap_build (sample_world true (Ok None) [queued_build] VNone (Ok tt))
                   "toto" "41" =
      (Ok (RenderBuild
             (build_context toto_details
                (Some (snap_build_of queued_build ident "building_soon"))
                (Some "log"))),
       [ApiGetSnapInfo "toto"; LpGetSnapBuild "toto" "41";
        LpGetSnapBuildLog "toto" "41"]).
Proof.
  destruct (get_snap_build_raw_logs
              (sample_world true (Ok None) [queued_build] VNone (Ok tt))
              "toto" "41" toto_details eq_refl) as [_ Hfound].
  destruct (Hfound queued_build "building_soon" eq_refl eq_refl)
    as (ident & Hid & _ & Hlogs).
  exists ident. split; [exact Hid|].
  exact (Hlogs "log" eq_refl eq_refl).
Defined.

Lemma views_answer_404_witness :
  post_snap_builds
    (scenario_world (Raise (ApiResponseErrorList 404 [])) (Ok None) (Ok None)
                    true (Ok (Some "toto")) (Ok None))
    (sample_request "master" None None) "tata"
    = (Raise (no_snap_named "tata"), [ApiGetSnapInfo "tata"]) /\
  post_disconnect_repo
    (sample_more_world
       (scenario_world (Raise (ApiResponseErrorList 404 [])) (Ok None)
                       (Ok None) true (Ok (Some "toto")) (Ok None))
       (Ok VNone) (Ok tt))
    (sample_request "master" None None) "tata"
    = (Raise (no_snap_named "tata"), [Core (ApiGetSnapInfo "tata")]).
Proof.
  destruct (views_answer_404
              (sample_more_world
                 (scenario_world (Raise (ApiResponseErrorList 404 []))
                                 (Ok None) (Ok None) true (Ok (Some "toto"))
                                 (Ok None))
                 (Ok VNone) (Ok tt))
              (sample_request "master" None None) None "40" "tata" []
              eq_refl)
    as (_ & _ & _ & Hconnect & _ & Hdisconnect & _).
  split; [exact Hconnect|exact Hdisconnect].
Defined.

Lemma get_snap_builds_page_witness :
  exists context t,
    get_snap_builds (sample_more_world linked_world (Ok VNone) (Ok tt))
                    (sample_request "master" None None) "toto"
      = (Ok (RenderBuilds context), t) /\
    length (bc_snap_builds context) = 5%nat /\
    snap_builds_enabled context = true /\
    (length (bc_snap_builds context) <= 15)%nat.
Proof.
  eexists _, _. split; [by vm_compute|]. split; [reflexivity|].
  destruct (get_snap_builds_page
              (sample_more_world linked_world (Ok VNone) (Ok tt))
              (sample_request "master" None None) "toto" _ _ eq_refl)
    as (Henabled & Hpage & _).
  split; [|exact Hpage]. apply Henabled. discriminate.
Defined.

Lemma get_snap_builds_github_user_witness :
  exists context,
    xoutcome (get_snap_builds
                (sample_more_world fresh_world (Raise Unauthorized) (Ok tt))
                (sample_request "master" None None) "toto")
      = Ok (RenderBuilds context) /\
    github_user context = Some VNone /\
    github_orgs context = None.
Proof.
  apply (proj2 (get_snap_builds_github_user
                  (sample_more_world fresh_world (Raise Unauthorized) (Ok tt))
                  (sample_request "master" None None) "toto" toto_details
                  "macaroon" eq_refl eq_refl eq_refl)).
  reflexivity.
Defined.

Lemma post_disconnect_repo_without_github_witness :
  xtrace (post_disconnect_repo
            (sample_more_world linked_world (Ok VNone) (Ok tt))
            anonymous_request "toto")
    = [Core (ApiGetSnapInfo "toto"); Core (LpGetSnapByStoreName "toto");
       LpDeleteSnap "toto"] /\
  xoutcome (post_disconnect_repo
              (sample_more_world linked_world (Ok VNone) (Ok tt))
              anonymous_request "toto")
    = Ok (Redirect "/toto/builds").
Proof.
  destruct (post_disconnect_repo_without_github
              (sample_more_world linked_world (Ok VNone) (Ok tt))
              anonymous_request "toto" toto_details
              (Some (registered_snap (Some "toto"))) eq_refl eq_refl eq_refl)
    as [Htrace Hout].
  split; [exact Htrace|exact (Hout eq_refl)].
Defined.

Lemma post_disconnect_repo_ignores_github_errors_witness :
  xoutcome (post_disconnect_repo
              (sample_more_world
                 (scenario_world (Ok toto_details)
                    (Ok (Some (registered_snap (Some "toto")))) (Ok None)
                    true (Ok (Some "toto")) (Ok (Some {| hook_id := 7 |})))
                 (Ok VNone) (Raise (HTTPError 502)))
              (sample_request "master" None None) "toto")
    = Ok (Redirect "/toto/builds").
Proof.
  apply (post_disconnect_repo_ignores_github_errors
           (sample_more_world
              (scenario_world (Ok toto_details)
                 (Ok (Some (registered_snap (Some "toto")))) (Ok None)
                 true (Ok (Some "toto")) (Ok (Some {| hook_id := 7 |})))
              (Ok VNone) (Raise (HTTPError 502)))
           (sample_request "master" None None) "toto" toto_details
           (registered_snap (Some "toto")) "canonical" "toto" 502
           eq_refl eq_refl eq_refl eq_refl eq_refl).
  right. exists {| hook_id := 7 |}. by split.
Defined.

Lemma post_disconnect_repo_unknown_snap_witness :
  post_disconnect_repo (sample_more_world fresh_world (Ok VNone) (Ok tt))
                       (sample_request "master" None None) "toto"
    = (Raise (TypeError "'NoneType' object is not subscriptable"),
       [Core (ApiGetSnapInfo "toto"); Core (LpGetSnapByStoreName "toto");
        LpDeleteSnap "toto"]).
Proof.
  apply (post_disconnect_repo_unknown_snap
           (sample_more_world fresh_world (Ok VNone) (Ok tt))
           (sample_request "master" None None) "toto" toto_details
           eq_refl eq_refl eq_refl eq_refl).
Defined.

Lemma post_update_gh_webhooks_moves_hook_witness :
  xtrace (post_update_gh_webhooks
            (sample_more_world
               (scenario_world (Ok toto_details)
                  (Ok (Some (registered_snap (Some "toto")))) (Ok None)
                  true (Ok (Some "toto")) (Ok (Some {| hook_id := 7 |})))
               (Ok VNone) (Ok tt))
            (sample_request "master" None None) "toto")
    = [Core (ApiGetSnapInfo "toto"); Core (LpGetSnapByStoreName "toto");
       Core (GhGetHookByUrl "canonical" "toto"
               "https://build.snapcraft.io/canonical/toto/webhook/notify");
       GhUpdateHookUrl "canonical" "toto" 7
                       "https://snapcraft.io/toto/webhook/notify"].
Proof.
  apply (proj1 (post_update_gh_webhooks_moves_hook
                  (sample_more_world
                     (scenario_world (Ok toto_details)
                        (Ok (Some (registered_snap (Some "toto")))) (Ok None)
                        true (Ok (Some "toto")) (Ok (Some {| hook_id := 7 |})))
                     (Ok VNone) (Ok tt))
                  (sample_request "master" None None) "toto" toto_details
                  (registered_snap (Some "toto")) "canonical" "toto"
                  (Some {| hook_id := 7 |}) eq_refl eq_refl eq_refl eq_refl)).
Defined.

Lemma github_url_round_trip_witness :
  "canonical/toto" = "canonical" +:+ "/" +:+ "toto" /\
  unpack_repository (Some (str_from 19 (github_url "canonical" "toto")))
    = Ok ("canonical", "toto").
Proof.
  apply (github_url_round_trip "canonical/toto" "canonical" "toto").
  reflexivity.
Defined.
